(** * The window-sweep driver [ml_otimizador_janela.py]

    A shallow embedding of the three functions of the script
    ([preparar_dados], [treinar_avaliar], [formatar_nome_janela]) and of
    its main loop, followed by the properties of the specification that
    were checked against them.

    Modelling conventions.
    - A pandas frame is a list of rows in storage order together with the
      list of its column names.  The [Date] and [Ticker] columns are
      typed fields of a row; every other column is a float cell kept in a
      finite map from column name to value.
    - A float is a [cell]: not-a-number, one of the two infinities, or a
      finite value.  Only comparisons are performed on cells by the code
      under study; arithmetic on them happens inside the libraries.
    - A timestamp is an integer count of nanoseconds; the subtraction of
      line 59 is checked against the 64-bit range of pandas and against
      the range of [datetime.timedelta].
    - A request is a list of names of float columns.  A request that
      names [Date] or [Ticker] hands the dates or the names themselves to
      numpy and to the scaler, and is outside the model: the preparation
      is given as raising there, and no theorem says what the code does
      on such a request.
    - pandas, scikit-learn and xgboost are collaborators outside of the
      repository.  What the script needs from them is gathered in the
      class [Library]; every definition and theorem is parametric in it.
    - A Python exception is the outcome [Raised]. *)

From Stdlib Require Import ZArith QArith String List Lia.
From stdpp Require Import gmap strings list pretty.

Open Scope Z_scope.

(** ** Floats *)

Inductive cell : Type :=
  | nan
  | neg_inf
  | num (q : Q)
  | pos_inf.

Definition isna (c : cell) : bool :=
  match c with nan => true | _ => false end.

Definition isinf (c : cell) : bool :=
  match c with neg_inf | pos_inf => true | _ => false end.

(** Python's [a > b] on floats: false as soon as one side is not a number. *)
Definition gt (a b : cell) : bool :=
  match a, b with
  | nan, _ => false
  | _, nan => false
  | neg_inf, _ => false
  | _, pos_inf => false
  | pos_inf, _ => true
  | num _, neg_inf => true
  | num x, num y => negb (Qle_bool x y)
  end.

(** [astype(int)] of a boolean, stored back in a numeric column. *)
Definition of_bool (b : bool) : cell := if b then num 1 else num 0.

(** ** Exceptions *)

Inductive outcome (A : Type) : Type :=
  | Returned (a : A)
  | Raised.
Arguments Returned {A} a.
Arguments Raised {A}.

Definition bind {A B : Type} (o : outcome A) (k : A → outcome B) : outcome B :=
  match o with
  | Returned a => k a
  | Raised => Raised
  end.

Notation "'let!' x ':=' e 'in' k" := (bind e (fun x => k))
  (at level 10, x pattern, e at level 100, k at level 200).

(** [check b] raises unless [b] holds (a [KeyError], [TypeError] or
    [ValueError] of the library, according to the place). *)
Definition check (b : bool) : outcome unit :=
  if b then Returned tt else Raised.

(** ** Frames *)

(** A date cell as read from the file: text that the permissive parser
    reads as a timestamp, or text (possibly empty) that it cannot read. *)
Inductive raw_date : Type :=
  | Parsed (t : Z)
  | Unparsed (s : string).

Record RawRow : Type := {
  raw_Date : raw_date;
  raw_Ticker : option string;
  raw_vals : gmap string cell
}.

Record RawFrame : Type := {
  raw_columns : list string;
  raw_rows : list RawRow
}.

Record Row : Type := {
  Date : option Z;
  Ticker : option string;
  vals : gmap string cell
}.

Record DataFrame : Type := {
  columns : list string;
  rows : list Row
}.

(** ** The libraries *)

Class Library : Type := {
  (** [pd.read_csv(path, sep=';', decimal=',')] *)
  read_csv : string → outcome RawFrame;
  (** [StandardScaler().fit_transform], from a matrix to a matrix *)
  fit_transform : list (list cell) → outcome (list (list cell));
  (** size of the test part chosen by [train_test_split(test_size=0.2)]
      for a given number of samples *)
  n_test : nat → nat;
  (** [XGBClassifier(...).fit(X_train, y_train)] followed by [predict]
      and [predict_proba(...)[:, 1]] on [X_test] *)
  fit_predict :
    list (list cell) → list cell → list (list cell) →
    outcome (list cell * list cell);
  accuracy_score : list cell → list cell → outcome cell;
  f1_score : list cell → list cell → outcome cell;
  roc_auc_score : list cell → list cell → outcome cell
}.

(** ** Column access *)

Definition has_col (c : string) (cols : list string) : bool :=
  existsb (String.eqb c) cols.

(** [df[c]] at one row, for a float column. *)
Definition at_col (r : Row) (c : string) : cell :=
  default nan (vals r !! c).

Definition typed_col (c : string) : bool :=
  String.eqb c "Date" || String.eqb c "Ticker".

(** Is the value of column [c] missing in row [r] (NaN, NaT or None)? *)
Definition missing (r : Row) (c : string) : bool :=
  if String.eqb c "Date" then negb (bool_decide (is_Some (Date r)))
  else if String.eqb c "Ticker" then negb (bool_decide (is_Some (Ticker r)))
  else isna (at_col r c).

(** [df.dropna(subset=...)] on the rows. *)
Definition dropna (subset : list string) (rs : list Row) : list Row :=
  List.filter (fun r => negb (existsb (missing r) subset)) rs.

(** [df[cols].values] *)
Definition values (cols : list string) (rs : list Row) : list (list cell) :=
  map (fun r => map (at_col r) cols) rs.

Definition set_cells (cols : list string) (xs : list cell) (r : Row) : Row :=
  {| Date := Date r;
     Ticker := Ticker r;
     vals := foldl (fun m fx => <[fx.1 := fx.2]> m) (vals r) (zip cols xs) |}.

(** [df[cols] = M]: pandas refuses a matrix of another shape. *)
Definition assign (cols : list string) (M : list (list cell)) (rs : list Row)
  : outcome (list Row) :=
  let! _ := check (Nat.eqb (length M) (length rs)) in
  let! _ := check (forallb (fun xs => Nat.eqb (length xs) (length cols)) M) in
  Returned (zip_with (set_cells cols) M rs).

(** [df[cols].replace([np.inf, -np.inf], np.nan)] written back. *)
Definition replace_inf (cols : list string) (rs : list Row) : list Row :=
  map (fun r =>
         set_cells cols
           (map (fun c => let x := at_col r c in if isinf x then nan else x) cols)
           r) rs.

(** ** [preparar_dados] *)

Definition to_datetime (d : raw_date) : option Z :=
  match d with
  | Parsed t => Some t
  | Unparsed _ => None
  end.

(** line 39: [errors='coerce'] turns what cannot be read into NaT. *)
Definition coerce_row (r : RawRow) : Row :=
  {| Date := to_datetime (raw_Date r);
     Ticker := raw_Ticker r;
     vals := raw_vals r |}.

Definition coerce_dates (rs : list RawRow) : list Row := map coerce_row rs.

Definition same_ticker (t : option string) (r : Row) : bool :=
  match t, Ticker r with
  | Some a, Some b => String.eqb a b
  | _, _ => false
  end.

(** [groupby('Ticker')['Adj Close'].shift(-1)] at a row of ticker [t]
    that is followed by the rows [rest]: the price of the next row of
    the same group, NaN when there is none.  Rows without a ticker
    belong to no group. *)
Fixpoint shift_next (t : option string) (rest : list Row) : cell :=
  match rest with
  | [] => nan
  | r :: rest' =>
      if same_ticker t r then at_col r "Adj Close" else shift_next t rest'
  end.

Definition set_target (x : cell) (r : Row) : Row :=
  {| Date := Date r; Ticker := Ticker r; vals := <["Target" := x]> (vals r) |}.

(** line 54 *)
Fixpoint add_target (rs : list Row) : list Row :=
  match rs with
  | [] => []
  | r :: rest =>
      set_target
        (of_bool (gt (shift_next (Ticker r) rest) (at_col r "Adj Close"))) r
      :: add_target rest
  end.

(** The requested columns of a frame just read hold floats: a file
    with a header and no row gives columns without a numeric type. *)
Definition colunas_de_float (raw : RawFrame) (cols : list string) : bool :=
  match cols, raw_rows raw with
  | _ :: _, [] => false
  | _, _ => true
  end.

Definition add_column (c : string) (cols : list string) : list string :=
  if has_col c cols then cols else cols ++ [c].

(** ** Window arithmetic *)

(** [df['Date'].max()]: the greatest date that is not NaT, NaT if none. *)
Definition max_date (rs : list Row) : option Z :=
  foldr (fun r acc =>
           match Date r, acc with
           | Some t, Some m => Some (Z.max t m)
           | Some t, None => Some t
           | None, _ => acc
           end) None rs.

Definition ns_per_day : Z := 86400 * 1000000000.

(** [timedelta(days=d)] *)
Definition timedelta (days : Z) : Z := days * ns_per_day.

(** The cutoff of line 59 as an integer; NaT propagates through the
    subtraction.  [limite_da_janela] below says when line 59 computes
    it. *)
Definition data_limite (rs : list Row) (meses_retroativos : Z) : option Z :=
  (fun m => m - timedelta (30 * meses_retroativos)) <$> max_date rs.

(** [Date >= data_limite] at one row; a comparison with NaT is false. *)
Definition ge_limite (limite : option Z) (r : Row) : bool :=
  match Date r, limite with
  | Some t, Some l => l <=? t
  | _, _ => false
  end.

(** line 60 *)
Definition df_recente (rs : list Row) (meses_retroativos : Z) : list Row :=
  List.filter (ge_limite (data_limite rs meses_retroativos)) rs.

(** The greatest number of days of a [datetime.timedelta], and the
    greatest count of nanoseconds of a pandas [Timedelta] or
    [Timestamp]. *)
Definition dias_max : Z := 999999999.
Definition ns_max : Z := 9223372036854775807.

Definition cabe_em_ns (x : Z) : bool := (- ns_max <=? x) && (x <=? ns_max).

(** line 59 as it runs: [timedelta(days=...)] raises beyond [dias_max]
    days; subtracting from NaT gives NaT; subtracting from a timestamp
    raises when the interval or the result leaves the 64-bit count of
    nanoseconds. *)
Definition limite_da_janela (rs : list Row) (meses_retroativos : Z)
  : outcome (option Z) :=
  let! _ := check (Z.abs (30 * meses_retroativos) <=? dias_max) in
  match max_date rs with
  | None => Returned None
  | Some m =>
      let! _ := check (cabe_em_ns (timedelta (30 * meses_retroativos))) in
      let! _ := check (cabe_em_ns (m - timedelta (30 * meses_retroativos))) in
      Returned (Some (m - timedelta (30 * meses_retroativos)))
  end.

(** ** [formatar_nome_janela] *)

Definition formatar_nome_janela (meses : Z) : string :=
  if 12 <=? meses then pretty (meses `div` 12) +:+ "a"
  else pretty meses +:+ "m".

(** ** Output tables *)

Record WindowMetric : Type := {
  Dataset : string;
  Janela : string;
  ROC_AUC : option cell;
  Accuracy : option cell;
  F1_Score : option cell
}.

Record BestWindowResult : Type := {
  Melhor_Dataset : string;
  Melhor_Janela : option string;
  Melhor_ROC_AUC : option cell;
  Melhor_Accuracy : option cell;
  Melhor_F1_Score : option cell
}.

(** The four variables of lines 114-117. *)
Record Melhor : Type := {
  melhor_roc : cell;
  melhor_acc : option cell;
  melhor_f1 : option cell;
  melhor_janela : option string
}.

Definition melhor_inicial : Melhor :=
  {| melhor_roc := num 0;
     melhor_acc := Some (num 0);
     melhor_f1 := Some (num 0);
     melhor_janela := None |}.

(** lines 129-133 *)
Definition atualizar_melhor (m : Melhor) (meses : Z) (acc f1 roc : option cell)
  : Melhor :=
  match roc with
  | Some r =>
      if gt r (melhor_roc m)
      then {| melhor_roc := r;
              melhor_acc := acc;
              melhor_f1 := f1;
              melhor_janela := Some (formatar_nome_janela meses) |}
      else m
  | None => m
  end.

(** lines 121-127 *)
Definition linha_metrica (arquivo : string) (meses : Z) (acc f1 roc : option cell)
  : WindowMetric :=
  {| Dataset := arquivo;
     Janela := formatar_nome_janela meses;
     ROC_AUC := roc;
     Accuracy := acc;
     F1_Score := f1 |}.

(** lines 135-141 *)
Definition linha_resultado (arquivo : string) (m : Melhor) : BestWindowResult :=
  {| Melhor_Dataset := arquivo;
     Melhor_Janela := melhor_janela m;
     Melhor_ROC_AUC := Some (melhor_roc m);
     Melhor_Accuracy := melhor_acc m;
     Melhor_F1_Score := melhor_f1 m |}.

Record Tabelas : Type := {
  resultados : list BestWindowResult;
  todas_metricas : list WindowMetric
}.

Definition janelas_meses : list Z := [3; 6; 9; 12; 24; 36].

(** ** Vocabulary of the specification *)

(** Number of rows dated on or after [limite]. *)
Fixpoint linhas_desde (limite : Z) (rs : list Row) : nat :=
  match rs with
  | [] => 0
  | r :: rs' =>
      let um :=
        match Date r with
        | Some t => if limite <=? t then 1%nat else 0%nat
        | None => 0%nat
        end in
      (um + linhas_desde limite rs')%nat
  end.

(** Number of rows dated on or after the maximum date minus
    30 x [meses] days; no row qualifies when no row has a date. *)
Definition linhas_na_janela (rs : list Row) (meses : Z) : nat :=
  match max_date rs with
  | Some m => linhas_desde (m - 30 * meses * ns_per_day) rs
  | None => 0%nat
  end.

(** A row has a value in every valid feature and in the price. *)
Definition completa (features_validas : list string) (r : Row) : bool :=
  forallb (fun c => negb (isna (at_col r c))) (features_validas ++ ["Adj Close"]).

(** No valid feature of the row is infinite. *)
Definition finita (features_validas : list string) (r : Row) : bool :=
  forallb (fun c => negb (isinf (at_col r c))) features_validas.

Definition sobrevive (features_validas : list string) (r : Row) : bool :=
  completa features_validas r && finita features_validas r.

(** What identifies an observation: its date and its instrument. *)
Definition chave (r : Row) : option Z * option string := (Date r, Ticker r).

(** The date of a raw row cannot be read. *)
Definition ilegivel (r : RawRow) : bool :=
  match raw_Date r with
  | Parsed _ => false
  | Unparsed _ => true
  end.

Definition sem_data (r : Row) : bool :=
  match Date r with
  | Some _ => false
  | None => true
  end.

Definition preco (r : Row) : cell := at_col r "Adj Close".

(** The next stored row of the instrument of the row at position [i]. *)
Definition proxima (rs : list Row) (i : nat) : option Row :=
  match rs !! i with
  | Some r => List.find (same_ticker (Ticker r)) (drop (S i) rs)
  | None => None
  end.

Definition mesmo_grupo (r r' : Row) : Prop :=
  ∃ g, Ticker r = Some g ∧ Ticker r' = Some g.

(** Within every instrument the rows are stored by increasing date. *)
Definition ordenado (rs : list Row) : Prop :=
  ∀ i j ri rj,
    (i < j)%nat → rs !! i = Some ri → rs !! j = Some rj → mesmo_grupo ri rj →
    ∃ ti tj, Date ri = Some ti ∧ Date rj = Some tj ∧ ti < tj.

(** [r'] is the chronologically next observation of the instrument of
    [r]: the earliest one of the same instrument dated after [r]. *)
Definition seguinte_no_tempo (rs : list Row) (r r' : Row) : Prop :=
  r' ∈ rs ∧ mesmo_grupo r r' ∧
  ∃ t t', Date r = Some t ∧ Date r' = Some t' ∧ t < t' ∧
          ∀ r'' t'', r'' ∈ rs → mesmo_grupo r r'' → Date r'' = Some t'' →
                     t < t'' → t' ≤ t''.

(** [r] is the chronologically last observation of its instrument. *)
Definition ultima_no_tempo (rs : list Row) (r : Row) : Prop :=
  ∀ r'' t t'', r'' ∈ rs → mesmo_grupo r r'' →
               Date r = Some t → Date r'' = Some t'' → t'' ≤ t.

(** The three statements of the specification about the prepared rows,
    in its own words. *)

(** "The last chronological row of every instrument group is excluded":
    an observation that is prepared is followed, in the file, by a later
    observation of its instrument. *)
Definition exclui_ultima_de_cada_grupo (raw : list RawRow) (prep : list Row)
  : Prop :=
  ∀ r g d, r ∈ prep → Ticker r = Some g → Date r = Some d →
    ∃ r' d', r' ∈ raw ∧ raw_Ticker r' = Some g ∧
             raw_Date r' = Parsed d' ∧ d < d'.

(** "No prepared row has a missing date." *)
Definition sem_datas_ausentes (prep : list Row) : Prop :=
  ∀ r, r ∈ prep → Date r ≠ None.

(** "Target is 1 if the chronologically next price of the instrument is
    strictly greater, else 0." *)
Definition alvo_cronologico (prep : list Row) : Prop :=
  ∀ r r', r ∈ prep → seguinte_no_tempo prep r r' →
          at_col r "Target" = of_bool (gt (preco r') (preco r)).

(** "The row of the best window is all-absent." *)
Definition toda_ausente (b : BestWindowResult) : Prop :=
  Melhor_Janela b = None ∧ Melhor_ROC_AUC b = None ∧
  Melhor_Accuracy b = None ∧ Melhor_F1_Score b = None.

(** "The table holds one row per (dataset, candidate window) pair": here
    for a run on a single file that enters the sweep. *)
Definition uma_linha_por_par (arquivo : string) (janelas : list Z)
    (tabela : list WindowMetric) : Prop :=
  map (fun l => (Dataset l, Janela l)) tabela
  = map (fun meses => (arquivo, formatar_nome_janela meses)) janelas.


Section Program.
Context {lib : Library}.

(** lines 44-50 *)
Definition limpar (features_validas : list string) (rs : list Row) : list Row :=
  let df := dropna (features_validas ++ ["Adj Close"]) rs in
  if existsb (existsb isinf) (values features_validas df)
  then dropna features_validas (replace_inf features_validas df)
  else df.

(** lines 52-53 *)
Definition padronizar (features_validas : list string) (rs : list Row)
  : outcome (list Row) :=
  if (0 <? length rs)%nat && (0 <? length features_validas)%nat
  then
    let! M := fit_transform (values features_validas rs) in
    assign features_validas M rs
  else Returned rs.

Definition preparar_dados (caminho_arquivo : string) (features : list string)
  : outcome (DataFrame * list string) :=
  let! raw := read_csv caminho_arquivo in
  let cols := raw_columns raw in
  (* 39 *)
  let! _ := check (has_col "Date" cols) in
  let df := coerce_dates (raw_rows raw) in
  (* 41 *)
  let features_validas := List.filter (fun f => has_col f cols) features in
  (* 44: the price column must exist *)
  let! _ := check (has_col "Adj Close" cols) in
  (* 46: np.isinf needs float columns; a request that names Date or
     Ticker is outside the model, and the columns of a file without a
     row are read as object columns *)
  let! _ := check (negb (existsb typed_col features_validas)) in
  let! _ := check (colunas_de_float raw features_validas) in
  let df := limpar features_validas df in
  let! df := padronizar features_validas df in
  (* 54 *)
  let! _ := check (has_col "Ticker" cols) in
  Returned ({| columns := add_column "Target" cols; rows := add_target df |},
            features_validas).

(** ** [treinar_avaliar] *)

Definition Metricas : Type := (option cell * option cell * option cell)%type.

(** lines 65-78: what happens once the window holds enough rows. *)
Definition treinar_e_medir (cols : list string) (features : list string)
    (recente : list Row) : outcome Metricas :=
  (* 65-66 *)
  let! _ := check (forallb (fun f => has_col f cols) features) in
  let! _ := check (has_col "Target" cols) in
  let X := values features recente in
  let y := map (fun r => at_col r "Target") recente in
  (* 68: no shuffling, the test part is the tail *)
  let n_train := (length recente - n_test (length recente))%nat in
  let! _ := check (0 <? n_train)%nat in
  let X_train := take n_train X in
  let X_test := drop n_train X in
  let y_train := take n_train y in
  let y_test := drop n_train y in
  (* 69-72 *)
  let! pp := fit_predict X_train y_train X_test in
  (* 74-76 *)
  let! acc := accuracy_score y_test pp.1 in
  let! f1 := f1_score y_test pp.1 in
  let! roc := roc_auc_score y_test pp.2 in
  Returned (Some acc, Some f1, Some roc).

Definition treinar_avaliar (df : DataFrame) (features : list string)
    (meses_retroativos : Z) (min_amostras : Z) : outcome Metricas :=
  (* 59-60: the cutoff that [limite_da_janela] returns is [data_limite],
     with which [df_recente] filters *)
  let! _ := check (has_col "Date" (columns df)) in
  let! _ := limite_da_janela (rows df) meses_retroativos in
  let recente := df_recente (rows df) meses_retroativos in
  (* 62-63 *)
  if Z.of_nat (length recente) <? min_amostras
  then Returned (None, None, None)
  else treinar_e_medir (columns df) features recente.

(** ** The main loop *)

(** lines 119-133: the sweep over the candidate windows of one dataset.
    The rows appended before an exception stay in the table. *)
Fixpoint varrer_janelas (arquivo : string) (df : DataFrame)
    (features_validas : list string) (janelas : list Z)
    (todas : list WindowMetric) (m : Melhor)
  : list WindowMetric * outcome Melhor :=
  match janelas with
  | [] => (todas, Returned m)
  | meses :: resto =>
      match treinar_avaliar df features_validas meses 100 with
      | Raised => (todas, Raised)
      | Returned (acc, f1, roc) =>
          varrer_janelas arquivo df features_validas resto
            (todas ++ [linha_metrica arquivo meses acc f1 roc])
            (atualizar_melhor m meses acc f1 roc)
      end
  end.

(** Lines 110-113: the dataset enters the sweep when it is prepared
    without exception, with a valid feature and a row left. *)
Definition validado (features_especificas : gmap string (list string))
    (arquivo : string) : option (DataFrame * list string) :=
  match features_especificas !! arquivo with
  | None => None
  | Some features =>
      match preparar_dados ("dados_transformados/" +:+ arquivo) features with
      | Raised => None
      | Returned (df, features_validas) =>
          if Nat.eqb (length features_validas) 0 || Nat.eqb (length (rows df)) 0
          then None
          else Some (df, features_validas)
      end
  end.

(** lines 104-146: the body of the loop over the files. *)
Definition processar (features_especificas : gmap string (list string))
    (janelas : list Z) (t : Tabelas) (arquivo : string) : Tabelas :=
  match validado features_especificas arquivo with
  | None => t
  | Some (df, features_validas) =>
      match varrer_janelas arquivo df features_validas janelas
              (todas_metricas t) melhor_inicial with
      | (todas, Raised) =>
          {| resultados := resultados t; todas_metricas := todas |}
      | (todas, Returned m) =>
          {| resultados := resultados t ++ [linha_resultado arquivo m];
             todas_metricas := todas |}
      end
  end.

(** lines 96-146 *)
Definition main_com (janelas : list Z) (arquivos : list string)
    (features_especificas : gmap string (list string)) : Tabelas :=
  foldl (processar features_especificas janelas)
        {| resultados := []; todas_metricas := [] |} arquivos.

Definition main : list string → gmap string (list string) → Tabelas :=
  main_com janelas_meses.

(** ** Vocabulary of the specification, continued *)

(** The row that the sweep writes for one window, if the evaluation of
    that window returns. *)
Definition linha_da_janela (arquivo : string) (df : DataFrame)
    (features_validas : list string) (meses : Z) : option WindowMetric :=
  match treinar_avaliar df features_validas meses 100 with
  | Returned (acc, f1, roc) => Some (linha_metrica arquivo meses acc f1 roc)
  | Raised => None
  end.

Definition linhas_do_dataset (arquivo : string) (df : DataFrame)
    (features_validas : list string) (janelas : list Z) : list WindowMetric :=
  omap (linha_da_janela arquivo df features_validas) janelas.

(** The full table of metrics: for every file that enters the sweep, in
    the order of the files, the rows of its windows in their order. *)
Definition tabela_completa (features_especificas : gmap string (list string))
    (janelas : list Z) (arquivos : list string) : list WindowMetric :=
  concat (map (fun arquivo =>
                 match validado features_especificas arquivo with
                 | Some (df, fv) => linhas_do_dataset arquivo df fv janelas
                 | None => []
                 end) arquivos).


(** The tracker [m] holds the evaluation of the window at position [i]
    of [janelas]: its three metrics and its label. *)
Definition vem_da_janela (df : DataFrame) (features_validas : list string)
    (janelas : list Z) (i : nat) (m : Melhor) : Prop :=
  ∃ meses acc f1,
    janelas !! i = Some meses ∧
    treinar_avaliar df features_validas meses 100
    = Returned (acc, f1, Some (melhor_roc m)) ∧
    melhor_acc m = acc ∧
    melhor_f1 m = f1 ∧
    melhor_janela m = Some (formatar_nome_janela meses).

(** The ROC-AUC of the window at position [j], when present. *)
Definition roc_da_janela (df : DataFrame) (features_validas : list string)
    (janelas : list Z) (j : nat) (r : cell) : Prop :=
  ∃ meses acc f1,
    janelas !! j = Some meses ∧
    treinar_avaliar df features_validas meses 100 = Returned (acc, f1, Some r).

End Program.

(** * The rest of the script *)

(** [s.endswith(sufixo)] *)
Definition endswith (s sufixo : string) : bool :=
  bool_decide (String.list_ascii_of_string sufixo
               `suffix_of` String.list_ascii_of_string s).

(** line 95: the files of the directory that are taken into the sweep. *)
Definition arquivos_csv (listagem : list string) : list string :=
  List.filter (fun f => endswith f ".csv") listagem.

Section Sweep.
Context {lib : Library}.

(** lines 95-146, from the listing of the directory. *)
Definition executar (listagem : list string)
    (features_especificas : gmap string (list string)) : Tabelas :=
  main (arquivos_csv listagem) features_especificas.

(** The candidate windows that are evaluated before one raises. *)
Fixpoint ate_levantar (df : DataFrame) (features_validas : list string)
    (janelas : list Z) : list Z :=
  match janelas with
  | [] => []
  | meses :: resto =>
      match treinar_avaliar df features_validas meses 100 with
      | Returned _ => meses :: ate_levantar df features_validas resto
      | Raised => []
      end
  end.

(** Does the evaluation of one of the windows raise? *)
Definition alguma_levanta (df : DataFrame) (features_validas : list string)
    (janelas : list Z) : bool :=
  existsb (fun meses =>
             match treinar_avaliar df features_validas meses 100 with
             | Returned _ => false
             | Raised => true
             end) janelas.

(** The tracker after the windows, each evaluation folded in turn. *)
Definition melhor_final (df : DataFrame) (features_validas : list string)
    (janelas : list Z) : Melhor :=
  foldl (fun m meses =>
           match treinar_avaliar df features_validas meses 100 with
           | Returned (acc, f1, roc) => atualizar_melhor m meses acc f1 roc
           | Raised => m
           end) melhor_inicial janelas.

(** What one file adds to each of the two tables. *)
Definition metricas_do_arquivo (features_especificas : gmap string (list string))
    (janelas : list Z) (arquivo : string) : list WindowMetric :=
  match validado features_especificas arquivo with
  | Some (df, fv) =>
      linhas_do_dataset arquivo df fv (ate_levantar df fv janelas)
  | None => []
  end.

Definition resultado_do_arquivo
    (features_especificas : gmap string (list string))
    (janelas : list Z) (arquivo : string) : option BestWindowResult :=
  match validado features_especificas arquivo with
  | Some (df, fv) =>
      if alguma_levanta df fv janelas then None
      else Some (linha_resultado arquivo (melhor_final df fv janelas))
  | None => None
  end.

End Sweep.

(** * Sample runs

    A small stand-in for the libraries and a few files, used to run the
    definitions above on concrete inputs. *)

(** ** A stand-in library *)

Definition rotulo_positivo (c : cell) : bool :=
  match c with
  | num q => Qeq_bool q 1
  | _ => false
  end.

Definition fracao (k n : nat) : cell := num (Z.of_nat k # Pos.of_nat n).

Definition conta {A : Type} (p : A → bool) (l : list A) : nat :=
  length (List.filter p l).

(** Share of the predictions that agree with the labels. *)
Definition acuracia (y preds : list cell) : outcome cell :=
  Returned
    (fracao
       (conta (fun yp => Bool.eqb (rotulo_positivo yp.1) (rotulo_positivo yp.2))
              (zip y preds))
       (length y)).

(** 2TP / (2TP + FP + FN), and 0 when nothing is positive. *)
Definition f1 (y preds : list cell) : outcome cell :=
  let tp := conta (fun yp => rotulo_positivo yp.1 && rotulo_positivo yp.2)
                  (zip y preds) in
  let fp := conta (fun yp => negb (rotulo_positivo yp.1) && rotulo_positivo yp.2)
                  (zip y preds) in
  let fn := conta (fun yp => rotulo_positivo yp.1 && negb (rotulo_positivo yp.2))
                  (zip y preds) in
  Returned
    (if Nat.eqb (2 * tp + fp + fn) 0 then num 0
     else fracao (2 * tp) (2 * tp + fp + fn)).

(** Area under the curve as the share of (positive, negative) pairs
    ranked in the right order, a tie counting for a half; an exception
    when one of the two classes is absent. *)
Definition area_roc (y probs : list cell) : outcome cell :=
  let pos := map snd (List.filter (fun yp => rotulo_positivo yp.1) (zip y probs)) in
  let neg := map snd (List.filter (fun yp => negb (rotulo_positivo yp.1))
                                  (zip y probs)) in
  if Nat.eqb (length pos) 0 || Nat.eqb (length neg) 0 then Raised
  else
    let meio (a b : cell) : nat :=
      if gt a b then 2%nat else if gt b a then 0%nat else 1%nat in
    let total := list_sum (map (fun a => list_sum (map (meio a) neg)) pos) in
    Returned (fracao total (2 * length pos * length neg)).

(** A classifier that has learnt nothing: class 0 everywhere, with a
    probability of one half for class 1. *)
Definition classificador_nulo (X_train : list (list cell)) (y_train : list cell)
    (X_test : list (list cell)) : outcome (list cell * list cell) :=
  Returned (map (fun _ => num 0) X_test, map (fun _ => num (1 # 2)) X_test).

(** The standard scaler on a matrix of which every column is constant:
    each value is centred to 0 and the null deviation is taken as 1. *)
Definition escala_de_constantes (M : list (list cell)) : list (list cell) :=
  map (map (fun _ => num 0)) M.

(** ** Sample files *)

Definition colunas : list string := ["Date"; "Ticker"; "Adj Close"; "x"].

Definition linha (data : raw_date) (ticker : string) (preco x : Q) : RawRow :=
  {| raw_Date := data;
     raw_Ticker := Some ticker;
     raw_vals := <["Adj Close" := num preco]> (<["x" := num x]> ∅) |}.

Definition dia (d : Z) : raw_date := Parsed (d * ns_per_day).

(** One observation. *)
Definition arquivo_uma_linha : RawFrame :=
  {| raw_columns := colunas; raw_rows := [linha (dia 19723) "A" 10 1] |}.

(** An observation with a date that cannot be read. *)
Definition arquivo_data_ilegivel : RawFrame :=
  {| raw_columns := colunas;
     raw_rows := [linha (dia 19723) "A" 10 1;
                  linha (Unparsed "31/02/2024") "A" 11 1] |}.

(** Two observations of one instrument, the later one stored first. *)
Definition arquivo_decrescente : RawFrame :=
  {| raw_columns := colunas;
     raw_rows := [linha (dia 19724) "A" 20 1; linha (dia 19723) "A" 10 1] |}.

(** Two instruments on two days, stored by date. *)
Definition arquivo_intercalado : RawFrame :=
  {| raw_columns := colunas;
     raw_rows := [linha (dia 19723) "A" 10 1; linha (dia 19723) "B" 5 1;
                  linha (dia 19724) "A" 12 1; linha (dia 19724) "B" 4 1] |}.

(** 120 daily observations with a price that never moves. *)
Definition arquivo_constante : RawFrame :=
  {| raw_columns := colunas;
     raw_rows := map (fun i => linha (dia (19723 + Z.of_nat i)) "A" 10 1)
                     (seq 0 120) |}.

(** 120 daily observations with a price that goes up and down. *)
Definition arquivo_serra : RawFrame :=
  {| raw_columns := colunas;
     raw_rows :=
       map (fun i => linha (dia (19723 + Z.of_nat i)) "A"
                           (inject_Z (10 + Z.of_nat (i mod 2))) 1)
           (seq 0 120) |}.

Definition disco (caminho : string) : outcome RawFrame :=
  if String.eqb caminho "dados_transformados/uma_linha.csv"
  then Returned arquivo_uma_linha
  else if String.eqb caminho "dados_transformados/data_ilegivel.csv"
  then Returned arquivo_data_ilegivel
  else if String.eqb caminho "dados_transformados/decrescente.csv"
  then Returned arquivo_decrescente
  else if String.eqb caminho "dados_transformados/intercalado.csv"
  then Returned arquivo_intercalado
  else if String.eqb caminho "dados_transformados/constante.csv"
  then Returned arquivo_constante
  else if String.eqb caminho "dados_transformados/serra.csv"
  then Returned arquivo_serra
  else Raised.

Definition biblioteca : Library :=
  {| read_csv := disco;
     fit_transform := fun M => Returned (escala_de_constantes M);
     n_test := fun n => Nat.div (n + 4) 5;
     fit_predict := classificador_nulo;
     accuracy_score := acuracia;
     f1_score := f1;
     roc_auc_score := area_roc |}.

(** [features_selecionadas.json]: the feature [x] for every file. *)
Definition selecionadas : gmap string (list string) :=
  list_to_map
    (map (fun a => (a, ["x"]))
         ["uma_linha.csv"; "data_ilegivel.csv"; "decrescente.csv";
          "intercalado.csv"; "constante.csv"; "serra.csv"]).

(** The prepared dataset of one of the sample files. *)
Definition preparado (arquivo : string) : DataFrame :=
  match preparar_dados (lib := biblioteca)
          ("dados_transformados/" +:+ arquivo) ["x"] with
  | Returned (df, _) => df
  | Raised => {| columns := []; rows := [] |}
  end.

(** Date, instrument, price and Target of each row. *)
Definition resumo (rs : list Row)
  : list (option Z * option string * cell * cell) :=
  map (fun r => (Date r, Ticker r, preco r, at_col r "Target")) rs.

(** A check of [ordenado] that runs. *)
Fixpoint ordenado_b (rs : list Row) : bool :=
  match rs with
  | [] => true
  | r :: rest =>
      forallb (fun r' =>
                 if same_ticker (Ticker r) r'
                 then match Date r, Date r' with
                      | Some t, Some t' => t <? t'
                      | _, _ => false
                      end
                 else true) rest
      && ordenado_b rest
  end.

(** Readings of an outcome that run. *)
Definition retornou {A : Type} (o : outcome A) : bool :=
  match o with
  | Returned _ => true
  | Raised => false
  end.

Definition insuficiente (o : outcome Metricas) : bool :=
  match o with
  | Returned (None, None, None) => true
  | _ => false
  end.

Definition features_de {A : Type} (o : outcome (A * list string))
  : option (list string) :=
  match o with
  | Returned (_, fv) => Some fv
  | Raised => None
  end.

(** The best window of the file with the moving price. *)
Definition melhor_da_serra : Melhor :=
  {| melhor_roc := num (144 # 288);
     melhor_acc := Some (num (12 # 24));
     melhor_f1 := Some (num (0 # 12));
     melhor_janela := Some "6m" |}.

(** A file with its header and no row, a file of which the only row has
    no price, and a directory that holds the two. *)
Definition arquivo_vazio : RawFrame :=
  {| raw_columns := colunas; raw_rows := [] |}.

Definition arquivo_sem_preco : RawFrame :=
  {| raw_columns := colunas;
     raw_rows := [{| raw_Date := dia 19723;
                     raw_Ticker := Some "A";
                     raw_vals := <["x" := num 1]> ∅ |}] |}.

Definition biblioteca_vazia : Library :=
  {| read_csv := fun caminho =>
       if String.eqb caminho "dados_transformados/vazio.csv"
       then Returned arquivo_vazio
       else Returned arquivo_sem_preco;
     fit_transform := fun M => Returned (escala_de_constantes M);
     n_test := fun n => Nat.div (n + 4) 5;
     fit_predict := classificador_nulo;
     accuracy_score := acuracia;
     f1_score := f1;
     roc_auc_score := area_roc |}.



(** * Properties *)

(** ** Window labels *)

(** C9.  [formatar_nome_janela] writes a count of at least 12 months as
    its floored number of years followed by "a" and a smaller count as
    the number of months followed by "m"; 3, 6, 12, 24 and 36 months
    give "3m", "6m", "1a", "2a" and "3a". *)
Theorem formatar_nome_janela_rotulos :
  (∀ meses, 12 ≤ meses →
     formatar_nome_janela meses = pretty (meses `div` 12) +:+ "a" ∧
     12 * (meses `div` 12) ≤ meses < 12 * (meses `div` 12) + 12) ∧
  (∀ meses, meses < 12 → formatar_nome_janela meses = pretty meses +:+ "m") ∧
  formatar_nome_janela 3 = "3m" ∧
  formatar_nome_janela 6 = "6m" ∧
  formatar_nome_janela 12 = "1a" ∧
  formatar_nome_janela 24 = "2a" ∧
  formatar_nome_janela 36 = "3a".
Proof.
  split; [|split; [|by vm_compute]].
  - intros meses Hm. unfold formatar_nome_janela.
    destruct (Z.leb_spec 12 meses); [|lia]. split; [done|].
    pose proof (Z.mul_div_le meses 12).
    pose proof (Z.mul_succ_div_gt meses 12). lia.
  - intros meses Hm. unfold formatar_nome_janela.
    destruct (Z.leb_spec 12 meses); [lia | done].
Qed.

(** ** The order on floats *)

Lemma gt_irrefl (a : cell) : gt a a = false.
Proof.
  destruct a as [| |x|]; simpl; try reflexivity.
  apply negb_false_iff, Qle_bool_iff, Qle_refl.
Qed.

Lemma gt_not_nan (a b : cell) : gt a b = true → a ≠ nan ∧ b ≠ nan.
Proof. destruct a, b; simpl; intros; split; congruence. Qed.

Lemma gt_trans (a b c : cell) : gt a b = true → gt b c = true → gt a c = true.
Proof.
  destruct a as [| |x|], b as [| |y|], c as [| |z|]; simpl;
    try congruence.
  rewrite !negb_true_iff, <- !not_true_iff_false, !Qle_bool_iff.
  intros Hxy Hyz Hxz. apply Hyz.
  apply Qle_trans with x; [|exact Hxz].
  apply Qlt_le_weak, Qnot_le_lt, Hxy.
Qed.

(** [c > b] and not [a > b]: then [c > a] unless [a] is not a number. *)
Lemma gt_above (a b c : cell) :
  gt c b = true → gt a b = false → a = nan ∨ gt c a = true.
Proof.
  destruct a as [| |x|], b as [| |y|], c as [| |z|]; simpl;
    try congruence; auto.
  rewrite negb_false_iff, !negb_true_iff, <- !not_true_iff_false, !Qle_bool_iff.
  intros Hzy Hxy. right. intros Hzx. apply Hzy.
  apply Qle_trans with x; assumption.
Qed.

(** ** The window restriction *)

Lemma max_date_upper (rs : list Row) (r : Row) (t : Z) :
  r ∈ rs → Date r = Some t → ∃ m, max_date rs = Some m ∧ t ≤ m.
Proof.
  induction rs as [|r0 rs IH]; intros Hin Ht.
  - inversion Hin.
  - apply elem_of_cons in Hin as [->|Hin]; simpl.
    + rewrite Ht. destruct (max_date rs) as [m|]; eexists; split;
        try reflexivity; lia.
    + destruct (IH Hin Ht) as (m & -> & Hm).
      destruct (Date r0) as [t0|]; eexists; split; try reflexivity; lia.
Qed.

Lemma max_date_attained (rs : list Row) (m : Z) :
  max_date rs = Some m → ∃ r, r ∈ rs ∧ Date r = Some m.
Proof.
  revert m. induction rs as [|r0 rs IH]; simpl; intros m Hm; [discriminate|].
  destruct (Date r0) as [t0|] eqn:E0.
  - destruct (max_date rs) as [m'|].
    + injection Hm as <-. destruct (Z.max_spec t0 m') as [[_ ->]|[_ ->]].
      * destruct (IH m' eq_refl) as (r & Hr & Hd).
        exists r. split; [by apply list_elem_of_further | done].
      * exists r0. split; [by apply list_elem_of_here | done].
    + injection Hm as <-. exists r0. split; [by apply list_elem_of_here | done].
  - destruct (IH m Hm) as (r & Hr & Hd).
    exists r. split; [by apply list_elem_of_further | done].
Qed.

Lemma max_date_none (rs : list Row) :
  max_date rs = None → ∀ r, r ∈ rs → Date r = None.
Proof.
  intros Hn r Hr. destruct (Date r) as [t|] eqn:E; [|done].
  destruct (max_date_upper rs r t Hr E) as (m & Hm & _). congruence.
Qed.

Lemma timedelta_mono (a b : Z) : a < b → timedelta a < timedelta b.
Proof. unfold timedelta, ns_per_day. lia. Qed.

Lemma ge_limite_mono (l1 l2 : option Z) (r : Row) :
  (∀ a, l1 = Some a → ∃ b, l2 = Some b ∧ b ≤ a) →
  ge_limite l1 r = true → ge_limite l2 r = true.
Proof.
  unfold ge_limite. intros Hl.
  destruct (Date r) as [t|]; [|done].
  destruct l1 as [a|]; [|done].
  destruct (Hl a eq_refl) as (b & -> & Hb).
  rewrite !Z.leb_le. lia.
Qed.

Lemma data_limite_mono (rs : list Row) (w1 w2 : Z) (a : Z) :
  w1 < w2 → data_limite rs w1 = Some a →
  ∃ b, data_limite rs w2 = Some b ∧ b ≤ a.
Proof.
  unfold data_limite. intros Hw.
  destruct (max_date rs) as [m|]; simpl; [|done].
  intros [= <-]. eexists; split; [reflexivity|].
  pose proof (timedelta_mono (30 * w1) (30 * w2)). lia.
Qed.

Lemma filter_sublist {A : Type} (f : A → bool) (l : list A) :
  List.filter f l `sublist_of` l.
Proof.
  induction l as [|x l IH]; simpl; [constructor|].
  destruct (f x); by constructor.
Qed.

Lemma filter_filter_impl {A : Type} (f g : A → bool) (l : list A) :
  (∀ x, f x = true → g x = true) →
  List.filter f (List.filter g l) = List.filter f l.
Proof.
  intros Hfg. induction l as [|x l IH]; simpl; [done|].
  destruct (g x) eqn:Eg; simpl.
  - destruct (f x); by rewrite IH.
  - destruct (f x) eqn:Ef; [|done].
    apply Hfg in Ef. congruence.
Qed.

Lemma linhas_desde_filter (l : Z) (rs : list Row) :
  linhas_desde l rs = length (List.filter (ge_limite (Some l)) rs).
Proof.
  induction rs as [|r rs IH]; simpl; [done|].
  unfold ge_limite at 1. rewrite IH.
  destruct (Date r) as [t|]; [|done].
  by destruct (l <=? t).
Qed.

Lemma linhas_na_janela_recente (rs : list Row) (meses : Z) :
  linhas_na_janela rs meses = length (df_recente rs meses).
Proof.
  unfold linhas_na_janela, df_recente, data_limite, timedelta.
  destruct (max_date rs) as [m|] eqn:Em; simpl.
  - rewrite linhas_desde_filter. by repeat (f_equal; try lia).
  - clear Em. induction rs as [|r rs IH]; simpl; [done|].
    unfold ge_limite at 1. by destruct (Date r).
Qed.

(** C7.  For two window lengths [w1 < w2] measured from the maximum date
    of the same frame, every row selected for [w1] is selected for [w2]:
    the shorter selection is a sub-list of the longer one, namely the
    rows of the longer one that pass the shorter cutoff. *)
Theorem janela_maior_contem_menor (rs : list Row) (w1 w2 : Z) :
  w1 < w2 →
  (∀ r, r ∈ df_recente rs w1 → r ∈ df_recente rs w2) ∧
  df_recente rs w1 `sublist_of` df_recente rs w2 ∧
  df_recente rs w1
  = List.filter (ge_limite (data_limite rs w1)) (df_recente rs w2).
Proof.
  intros Hw.
  assert (Heq : df_recente rs w1
    = List.filter (ge_limite (data_limite rs w1)) (df_recente rs w2)).
  { unfold df_recente. symmetry. apply filter_filter_impl.
    intros r. apply ge_limite_mono.
    intros a. by apply data_limite_mono. }
  split; [|split; [|exact Heq]].
  - intros r. rewrite Heq, !list_elem_of_In, filter_In. tauto.
  - rewrite Heq. apply filter_sublist.
Qed.

(** ** Exceptions *)

Lemma bind_returned {A B : Type} (o : outcome A) (k : A → outcome B) (b : B) :
  bind o k = Returned b → ∃ a, o = Returned a ∧ k a = Returned b.
Proof. destruct o as [a|]; simpl; [eauto | discriminate]. Qed.

Lemma check_returned (b : bool) (u : unit) : check b = Returned u → b = true.
Proof. by destruct b. Qed.

Lemma check_true (b : bool) : b = true → check b = Returned tt.
Proof. by intros ->. Qed.

(** Peels the successive steps of a computation that returned. *)
Ltac returned H :=
  repeat match type of H with
         | bind (check _) _ = Returned _ =>
             let u := fresh "u" in
             let Hc := fresh "Hc" in
             apply bind_returned in H as (u & Hc & H);
             apply check_returned in Hc
         | bind _ _ = Returned _ =>
             let a := fresh "a" in
             let Ha := fresh "Ha" in
             apply bind_returned in H as (a & Ha & H)
         end.

(** ** Columns *)

Lemma has_col_add_column (c c' : string) (cols : list string) :
  has_col c cols = true → has_col c (add_column c' cols) = true.
Proof.
  unfold add_column. intros Hc. destruct (has_col c' cols); [done|].
  unfold has_col in *. rewrite existsb_app, Hc. done.
Qed.

Lemma has_col_added (c : string) (cols : list string) :
  has_col c (add_column c cols) = true.
Proof.
  unfold add_column. destruct (has_col c cols) eqn:E; [done|].
  unfold has_col. rewrite existsb_app. simpl.
  rewrite String.eqb_refl. by rewrite orb_true_r.
Qed.

(** ** The cleaning of lines 44-50 *)

Lemma lookup_foldl_insert (g : string → cell) (cols : list string) :
  ∀ (m : gmap string cell) (c : string),
  foldl (fun m fx => <[fx.1 := fx.2]> m) m (zip cols (map g cols)) !! c
  = if bool_decide (c ∈ cols) then Some (g c) else m !! c.
Proof.
  induction cols as [|x cols IH]; intros m c; simpl; [done|].
  rewrite IH. destruct (bool_decide (c ∈ cols)) eqn:E.
  - apply bool_decide_eq_true in E.
    rewrite bool_decide_eq_true_2; [done | by apply list_elem_of_further].
  - apply bool_decide_eq_false in E.
    destruct (decide (c = x)) as [->|Hne].
    + rewrite lookup_insert_eq.
      rewrite bool_decide_eq_true_2; [done | apply list_elem_of_here].
    + rewrite lookup_insert_ne by done.
      rewrite bool_decide_eq_false_2; [done|].
      rewrite elem_of_cons. tauto.
Qed.

Lemma at_col_set_cells (g : string → cell) (cols : list string) (r : Row)
    (c : string) :
  at_col (set_cells cols (map g cols) r) c
  = if bool_decide (c ∈ cols) then g c else at_col r c.
Proof.
  unfold at_col, set_cells. simpl. rewrite lookup_foldl_insert.
  by destruct (bool_decide (c ∈ cols)).
Qed.

Lemma set_cells_id (g : string → cell) (cols : list string) (r : Row) :
  (∀ c, c ∈ cols → vals r !! c = Some (g c)) →
  set_cells cols (map g cols) r = r.
Proof.
  intros Hg. destruct r as [d t m]. unfold set_cells. simpl in *.
  f_equal. apply map_eq. intros c. rewrite lookup_foldl_insert.
  destruct (bool_decide (c ∈ cols)) eqn:E; [|done].
  apply bool_decide_eq_true in E. by rewrite Hg.
Qed.

Lemma missing_float (r : Row) (c : string) :
  typed_col c = false → missing r c = isna (at_col r c).
Proof.
  unfold typed_col, missing. intros Ht. apply orb_false_iff in Ht as [-> ->].
  done.
Qed.

Lemma dropna_completa (fv : list string) (rs : list Row) :
  existsb typed_col fv = false →
  dropna (fv ++ ["Adj Close"]) rs = List.filter (completa fv) rs.
Proof.
  intros Ht. unfold dropna. apply filter_ext. intros r. unfold completa.
  induction fv as [|c fv IH]; simpl in *.
  - rewrite missing_float by reflexivity.
    by destruct (isna (at_col r "Adj Close")).
  - apply orb_false_iff in Ht as [Hc Hfv].
    rewrite (missing_float r c Hc). rewrite <- IH by done.
    by destruct (isna (at_col r c)).
Qed.

Lemma sem_infinitos (fv : list string) (rs : list Row) :
  existsb (existsb isinf) (values fv rs) = false →
  List.filter (finita fv) rs = rs.
Proof.
  induction rs as [|r rs IH]; simpl; [done|].
  intros Hf. apply orb_false_iff in Hf as [Hr Hrs].
  assert (Hfin : finita fv r = true).
  { unfold finita. clear -Hr. induction fv as [|c fv IH]; simpl in *; [done|].
    apply orb_false_iff in Hr as [-> Hr]. by rewrite IH. }
  by rewrite Hfin, IH.
Qed.

(** On rows that have a value in every valid feature, replacing the
    infinite values by NaN and dropping the rows with a NaN drops the
    rows with an infinite value and leaves the others as they were. *)
Lemma dropna_replace_inf (fv : list string) (rs : list Row) :
  existsb typed_col fv = false →
  (∀ r, r ∈ rs → completa fv r = true) →
  dropna fv (replace_inf fv rs) = List.filter (finita fv) rs.
Proof.
  intros Ht. induction rs as [|r rs IH]; intros Hc; [done|].
  assert (Hr : completa fv r = true) by (apply Hc, list_elem_of_here).
  assert (Hrs : ∀ r', r' ∈ rs → completa fv r' = true)
    by (intros; by apply Hc, list_elem_of_further).
  specialize (IH Hrs).
  unfold dropna, replace_inf in *. simpl. rewrite IH. clear IH Hc Hrs.
  set (g := fun c => let x := at_col r c in if isinf x then nan else x).
  assert (Hna : ∀ c, c ∈ fv → isna (at_col r c) = false).
  { intros c Hin. unfold completa in Hr.
    rewrite forallb_forall in Hr. apply negb_true_iff, Hr.
    apply in_or_app. left. by apply list_elem_of_In. }
  assert (Hm : existsb (missing (set_cells fv (map g fv) r)) fv
               = negb (finita fv r)).
  { unfold finita.
    assert (Hall : ∀ cs, (∀ c, c ∈ cs → c ∈ fv) →
      existsb (missing (set_cells fv (map g fv) r)) cs
      = negb (forallb (fun c => negb (isinf (at_col r c))) cs)).
    { induction cs as [|c cs IHc]; intros Hsub; simpl; [done|].
      rewrite IHc by (intros; by apply Hsub, list_elem_of_further).
      assert (Hin : c ∈ fv) by apply Hsub, list_elem_of_here.
      rewrite missing_float.
      2:{ rewrite <- not_true_iff_false. intros Hty.
          assert (existsb typed_col fv = true); [|congruence].
          apply existsb_exists. exists c. split; [|done].
          by apply list_elem_of_In. }
      rewrite at_col_set_cells, bool_decide_eq_true_2 by done.
      unfold g. simpl. specialize (Hna c Hin).
      destruct (at_col r c); simpl in *; try done. }
    by apply Hall. }
  rewrite Hm. destruct (finita fv r) eqn:Hfin; simpl; [|done].
  f_equal. apply set_cells_id. intros c Hin.
  unfold g. simpl. specialize (Hna c Hin).
  unfold finita in Hfin. rewrite forallb_forall in Hfin.
  assert (Hi : isinf (at_col r c) = false).
  { apply negb_true_iff, Hfin. by apply list_elem_of_In. }
  rewrite Hi. unfold at_col in *.
  destruct (vals r !! c) as [x|]; simpl in *; [done | discriminate].
Qed.

Lemma limpar_sobrevive (fv : list string) (rs : list Row) :
  existsb typed_col fv = false →
  limpar fv rs = List.filter (sobrevive fv) rs.
Proof.
  intros Ht. unfold limpar. rewrite dropna_completa by done.
  assert (Hs : List.filter (sobrevive fv) rs
               = List.filter (finita fv) (List.filter (completa fv) rs)).
  { unfold sobrevive. induction rs as [|r rs IH]; simpl; [done|].
    destruct (completa fv r); simpl; [|done].
    destruct (finita fv r); by rewrite IH. }
  rewrite Hs.
  destruct (existsb (existsb isinf) (values fv (List.filter (completa fv) rs)))
    eqn:Einf.
  - apply dropna_replace_inf; [done|].
    intros r Hr. apply list_elem_of_In, filter_In in Hr. tauto.
  - symmetry. by apply sem_infinitos.
Qed.

(** ** The label of line 54 *)

Lemma find_first {A : Type} (p : A → bool) (l : list A) (x : A) :
  List.find p l = Some x →
  ∃ n, l !! n = Some x ∧ p x = true ∧
       ∀ k y, (k < n)%nat → l !! k = Some y → p y = false.
Proof.
  induction l as [|a l IH]; simpl; [discriminate|].
  destruct (p a) eqn:Ea.
  - intros [= ->]. exists 0%nat. repeat split; try done. intros; lia.
  - intros Hf. destruct (IH Hf) as (n & Hn & Hp & Hbefore).
    exists (S n). repeat split; try done.
    intros [|k] y Hk Hy; simpl in Hy; [by simplify_eq|].
    apply (Hbefore k); [lia | done].
Qed.

Lemma find_none_lookup {A : Type} (p : A → bool) (l : list A) :
  List.find p l = None → ∀ k y, l !! k = Some y → p y = false.
Proof.
  intros Hf k y Hy. apply (find_none p l Hf).
  apply list_elem_of_In, list_elem_of_lookup. eauto.
Qed.

Lemma same_ticker_grupo (r r' : Row) :
  same_ticker (Ticker r) r' = true ↔ mesmo_grupo r r'.
Proof.
  unfold same_ticker, mesmo_grupo. split.
  - destruct (Ticker r) as [a|], (Ticker r') as [b|]; try discriminate.
    intros Hab. apply String.eqb_eq in Hab as ->. eauto.
  - intros (g & -> & ->). apply String.eqb_refl.
Qed.

Lemma proxima_some (rs : list Row) (i : nat) (r r' : Row) :
  rs !! i = Some r → proxima rs i = Some r' →
  ∃ j, (i < j)%nat ∧ rs !! j = Some r' ∧ mesmo_grupo r r' ∧
       ∀ k rk, (i < k < j)%nat → rs !! k = Some rk → ¬ mesmo_grupo r rk.
Proof.
  unfold proxima. intros -> Hf.
  apply find_first in Hf as (n & Hn & Hp & Hbefore).
  rewrite lookup_drop in Hn.
  exists (S i + n)%nat. repeat split; [lia | done | by apply same_ticker_grupo |].
  intros k rk Hk Hrk Hg. apply same_ticker_grupo in Hg.
  rewrite (Hbefore (k - S i)%nat rk) in Hg; [done | lia |].
  rewrite lookup_drop. by replace (S i + (k - S i))%nat with k by lia.
Qed.

Lemma proxima_none (rs : list Row) (i : nat) (r : Row) :
  rs !! i = Some r → proxima rs i = None →
  ∀ k rk, (i < k)%nat → rs !! k = Some rk → ¬ mesmo_grupo r rk.
Proof.
  unfold proxima. intros -> Hf k rk Hk Hrk Hg.
  apply same_ticker_grupo in Hg.
  rewrite (find_none_lookup _ _ Hf (k - S i)%nat rk) in Hg; [done|].
  rewrite lookup_drop. by replace (S i + (k - S i))%nat with k by lia.
Qed.

Lemma at_col_set_target (x : cell) (r : Row) (c : string) :
  at_col (set_target x r) c = if String.eqb c "Target" then x else at_col r c.
Proof.
  unfold at_col, set_target. simpl.
  destruct (String.eqb_spec c "Target") as [->|Hne].
  - by rewrite lookup_insert_eq.
  - by rewrite lookup_insert_ne.
Qed.

Lemma shift_next_find (t : option string) (l : list Row) :
  shift_next t l
  = match List.find (same_ticker t) l with
    | Some r' => preco r'
    | None => nan
    end.
Proof.
  induction l as [|r l IH]; simpl; [done|].
  by destruct (same_ticker t r).
Qed.

Lemma shift_next_add_target (t : option string) (l : list Row) :
  shift_next t (add_target l) = shift_next t l.
Proof.
  induction l as [|r l IH]; simpl; [done|].
  rewrite IH, at_col_set_target. simpl.
  by replace (same_ticker t (set_target _ r)) with (same_ticker t r).
Qed.

Lemma add_target_drop (k : nat) (rs : list Row) :
  add_target (drop k rs) = drop k (add_target rs).
Proof.
  revert k. induction rs as [|r rs IH]; intros [|k]; simpl; try done.
Qed.

Lemma add_target_chaves (rs : list Row) :
  map chave (add_target rs) = map chave rs.
Proof. induction rs as [|r rs IH]; simpl; [done|]. by rewrite IH. Qed.

Lemma add_target_lookup (rs : list Row) (i : nat) (r : Row) :
  add_target rs !! i = Some r →
  at_col r "Target"
  = of_bool (gt (shift_next (Ticker r) (drop (S i) (add_target rs))) (preco r)).
Proof.
  revert i. induction rs as [|r0 rs IH]; intros [|i]; simpl; try done.
  - intros [= <-]. rewrite at_col_set_target. simpl.
    rewrite drop_0, shift_next_add_target.
    unfold preco. by rewrite at_col_set_target.
  - apply IH.
Qed.

Lemma zip_with_chaves (cols : list string) (M : list (list cell))
    (rs : list Row) :
  length M = length rs →
  map chave (zip_with (set_cells cols) M rs) = map chave rs.
Proof.
  revert M. induction rs as [|r rs IH]; intros [|xs M]; simpl; try done.
  intros [= Hl]. by rewrite IH.
Qed.

Lemma assign_chaves (cols : list string) (M : list (list cell))
    (rs rs' : list Row) :
  assign cols M rs = Returned rs' → map chave rs' = map chave rs.
Proof.
  unfold assign. intros Ha. returned Ha. injection Ha as <-.
  apply zip_with_chaves. by apply Nat.eqb_eq.
Qed.

(** ** Storage order and chronological order *)

Lemma mesmo_grupo_sym (r r' : Row) : mesmo_grupo r r' → mesmo_grupo r' r.
Proof. intros (g & ? & ?). by exists g. Qed.

Lemma mesmo_grupo_trans (r r' r'' : Row) :
  mesmo_grupo r r' → mesmo_grupo r' r'' → mesmo_grupo r r''.
Proof. intros (g & ? & ?) (g' & ? & ?). exists g. split; congruence. Qed.

Lemma proxima_e_a_seguinte (rs : list Row) (i : nat) (r r' : Row) :
  ordenado rs → rs !! i = Some r → proxima rs i = Some r' →
  seguinte_no_tempo rs r r'.
Proof.
  intros Hord Hi Hp.
  destruct (proxima_some rs i r r' Hi Hp) as (j & Hij & Hj & Hg & Hbetween).
  destruct (Hord i j r r' Hij Hi Hj Hg) as (t & t' & Ht & Ht' & Hlt).
  split; [apply list_elem_of_lookup; eauto|]. split; [done|].
  exists t, t'. repeat split; try done.
  intros r'' t'' Hin Hg'' Ht'' Hlater.
  apply list_elem_of_lookup in Hin as [k Hk].
  destruct (Nat.lt_trichotomy k i) as [Hki|[->|Hik]].
  - destruct (Hord k i r'' r Hki Hk Hi (mesmo_grupo_sym _ _ Hg''))
      as (a & b & Ha & Hb & Hab).
    simplify_eq. lia.
  - simplify_eq. lia.
  - destruct (Nat.lt_trichotomy k j) as [Hkj|[->|Hjk]].
    + exfalso. by apply (Hbetween k r'').
    + simplify_eq. lia.
    + assert (Hg' : mesmo_grupo r' r'')
        by (apply mesmo_grupo_trans with r; [by apply mesmo_grupo_sym | done]).
      destruct (Hord j k r' r'' Hjk Hj Hk Hg') as (a & b & Ha & Hb & Hab).
      simplify_eq. lia.
Qed.

Lemma sem_proxima_e_a_ultima (rs : list Row) (i : nat) (r : Row) :
  ordenado rs → rs !! i = Some r → proxima rs i = None →
  ultima_no_tempo rs r.
Proof.
  intros Hord Hi Hp r'' t t'' Hin Hg Ht Ht''.
  apply list_elem_of_lookup in Hin as [k Hk].
  destruct (Nat.lt_trichotomy k i) as [Hki|[->|Hik]].
  - destruct (Hord k i r'' r Hki Hk Hi (mesmo_grupo_sym _ _ Hg))
      as (a & b & Ha & Hb & Hab).
    simplify_eq. lia.
  - simplify_eq. lia.
  - exfalso. by apply (proxima_none rs i r Hi Hp k r'').
Qed.

(** ** Counting rows without a date *)

Lemma sem_data_chaves (l1 l2 : list Row) :
  map chave l1 = map chave l2 →
  length (List.filter sem_data l1) = length (List.filter sem_data l2).
Proof.
  revert l2. induction l1 as [|a l1 IH]; intros [|b l2]; simpl; try done.
  intros [= Hd Ht Hl]. specialize (IH l2 Hl).
  assert (Hab : sem_data a = sem_data b) by (unfold sem_data; by rewrite Hd).
  rewrite Hab. destruct (sem_data b); simpl; by rewrite IH.
Qed.

Lemma filter_filter_andb {A : Type} (f g : A → bool) (l : list A) :
  List.filter f (List.filter g l) = List.filter (fun x => f x && g x) l.
Proof.
  induction l as [|x l IH]; simpl; [done|].
  destruct (g x); simpl; rewrite ?andb_true_r, ?andb_false_r; [|done].
  destruct (f x); by rewrite IH.
Qed.

Lemma filter_map_length {A B : Type} (f : A → B) (p : B → bool) (l : list A) :
  length (List.filter p (map f l))
  = length (List.filter (fun x => p (f x)) l).
Proof.
  induction l as [|x l IH]; simpl; [done|].
  destruct (p (f x)); simpl; by rewrite IH.
Qed.

Lemma sem_data_ilegivel (r : RawRow) : sem_data (coerce_row r) = ilegivel r.
Proof. unfold sem_data, ilegivel. simpl. by destruct (raw_Date r). Qed.

Section Properties.
Context {lib : Library}.

(** ** What a successful preparation went through *)

Lemma preparar_dados_inv (caminho : string) (features : list string)
    (df : DataFrame) (fv : list string) :
  preparar_dados caminho features = Returned (df, fv) →
  ∃ raw escala,
    read_csv caminho = Returned raw ∧
    fv = List.filter (fun f => has_col f (raw_columns raw)) features ∧
    has_col "Date" (raw_columns raw) = true ∧
    has_col "Adj Close" (raw_columns raw) = true ∧
    has_col "Ticker" (raw_columns raw) = true ∧
    existsb typed_col fv = false ∧
    padronizar fv (limpar fv (coerce_dates (raw_rows raw))) = Returned escala ∧
    df = {| columns := add_column "Target" (raw_columns raw);
            rows := add_target escala |}.
Proof.
  unfold preparar_dados. intros Hp. returned Hp.
  injection Hp as <- <-.
  eexists _, _. repeat split; try eassumption; try reflexivity.
  by apply negb_true_iff.
Qed.

Lemma preparado_tem_colunas (caminho : string) (features : list string)
    (df : DataFrame) (fv : list string) :
  preparar_dados caminho features = Returned (df, fv) →
  has_col "Date" (columns df) = true ∧
  has_col "Target" (columns df) = true ∧
  forallb (fun f => has_col f (columns df)) fv = true.
Proof.
  intros Hp. apply preparar_dados_inv in Hp
    as (raw & escala & _ & Hfv & Hd & _ & _ & _ & _ & ->). simpl.
  split; [by apply has_col_add_column|].
  split; [apply has_col_added|].
  apply forallb_forall. intros f Hf. apply has_col_add_column.
  rewrite Hfv in Hf. by apply filter_In in Hf as [_ Hf].
Qed.

(** ** The evaluation of one window *)

Lemma treinar_e_medir_presentes (cols features : list string)
    (recente : list Row) (acc f1 roc : option cell) :
  treinar_e_medir cols features recente = Returned (acc, f1, roc) →
  is_Some acc ∧ is_Some f1 ∧ is_Some roc.
Proof.
  unfold treinar_e_medir. intros Ht. returned Ht.
  injection Ht as <- <- <-. eauto.
Qed.

Lemma limite_da_janela_retorna (rs : list Row) (meses : Z)
    (limite : option Z) :
  limite_da_janela rs meses = Returned limite → limite = data_limite rs meses.
Proof.
  unfold limite_da_janela, data_limite. intros Hl. returned Hl.
  destruct (max_date rs) as [m|]; simpl.
  - returned Hl. by injection Hl as <-.
  - by injection Hl as <-.
Qed.

Lemma janelas_usuais_cabem (rs : list Row) (meses : Z) :
  0 ≤ meses ≤ 3558 →
  (∀ r t, r ∈ rs → Date r = Some t → 0 ≤ t ≤ ns_max) →
  limite_da_janela rs meses ≠ Raised.
Proof.
  intros Hm Hdatas. unfold limite_da_janela.
  assert (H1 : (Z.abs (30 * meses) <=? dias_max) = true)
    by (apply Z.leb_le; unfold dias_max; lia).
  rewrite H1. simpl.
  destruct (max_date rs) as [m|] eqn:Em; [|done].
  destruct (max_date_attained rs m Em) as (r & Hr & Hd).
  specialize (Hdatas r m Hr Hd).
  assert (H2 : cabe_em_ns (timedelta (30 * meses)) = true).
  { unfold cabe_em_ns, timedelta, ns_per_day, ns_max.
    apply andb_true_iff. rewrite !Z.leb_le. lia. }
  assert (H3 : cabe_em_ns (m - timedelta (30 * meses)) = true).
  { unfold cabe_em_ns, timedelta, ns_per_day, ns_max in *.
    apply andb_true_iff. rewrite !Z.leb_le. lia. }
  by rewrite H2, H3.
Qed.

(** C6, as the code has it.  Take a dataset prepared from a request that
    does not name Date.  When line 59 cannot compute the cutoff (the
    interval or the cutoff leaves the 64-bit count of nanoseconds),
    [treinar_avaliar] raises.  When it can, [treinar_avaliar] returns the
    three metrics absent exactly when the number of rows dated on or
    after the maximum date minus 30 x [meses] days is strictly below
    [min_amostras]; with that many rows or more it goes on to train and
    measure, so with exactly [min_amostras] rows it trains and with
    [min_amostras - 1] rows it returns the absent metrics.  Line 59 can
    compute the cutoff for every window of 0 to 3558 months over dates
    from 1970 on. *)
Theorem insuficiente_sse_abaixo_do_minimo (caminho : string)
    (features : list string) (df : DataFrame) (fv : list string)
    (meses min_amostras : Z) :
  ("Date" ∉ features) →
  preparar_dados caminho features = Returned (df, fv) →
  (limite_da_janela (rows df) meses = Raised →
   treinar_avaliar df fv meses min_amostras = Raised) ∧
  (limite_da_janela (rows df) meses ≠ Raised →
   let n := Z.of_nat (linhas_na_janela (rows df) meses) in
   (treinar_avaliar df fv meses min_amostras = Returned (None, None, None)
    ↔ n < min_amostras) ∧
   (min_amostras ≤ n →
    treinar_avaliar df fv meses min_amostras
    = treinar_e_medir (columns df) fv (df_recente (rows df) meses)) ∧
   (n = min_amostras →
    treinar_avaliar df fv meses min_amostras ≠ Returned (None, None, None)) ∧
   (n = min_amostras - 1 →
    treinar_avaliar df fv meses min_amostras = Returned (None, None, None))) ∧
  (0 ≤ meses ≤ 3558 →
   (∀ r t, r ∈ rows df → Date r = Some t → 0 ≤ t ≤ ns_max) →
   limite_da_janela (rows df) meses ≠ Raised).
Proof.
  intros _ Hp.
  destruct (preparado_tem_colunas _ _ _ _ Hp) as (Hd & _ & _).
  split; [|split; [|apply janelas_usuais_cabem]].
  - intros Hl. unfold treinar_avaliar. by rewrite Hd, Hl.
  - intros Hl n. subst n. rewrite linhas_na_janela_recente.
    unfold treinar_avaliar. rewrite Hd. simpl.
    destruct (limite_da_janela (rows df) meses) as [lim|]; [|done]. simpl.
    set (k := Z.of_nat (length (df_recente (rows df) meses))).
    assert (Hno : treinar_e_medir (columns df) fv (df_recente (rows df) meses)
                  ≠ Returned (None, None, None)).
    { intros Ht. apply treinar_e_medir_presentes in Ht as ([? ?] & _).
      discriminate. }
    destruct (Z.ltb_spec k min_amostras) as [Hlt|Hge].
    + repeat split; intros; try done; lia.
    + repeat split; intros; try done; try lia.
Qed.

(** ** The sweep over the windows of one dataset *)

Lemma atualizar_melhor_so_se_maior (m : Melhor) (meses : Z)
    (acc f1 roc : option cell) :
  (∃ r, roc = Some r ∧ gt r (melhor_roc m) = true ∧
        atualizar_melhor m meses acc f1 roc
        = {| melhor_roc := r; melhor_acc := acc; melhor_f1 := f1;
             melhor_janela := Some (formatar_nome_janela meses) |})
  ∨ ((∀ r, roc = Some r → gt r (melhor_roc m) = false) ∧
     atualizar_melhor m meses acc f1 roc = m).
Proof.
  unfold atualizar_melhor. destruct roc as [r|].
  - destruct (gt r (melhor_roc m)) eqn:E.
    + left. eauto.
    + right. split; [|done]. by intros ? [= <-].
  - right. by split.
Qed.

Lemma varrer_melhor (arquivo : string) (df : DataFrame) (fv : list string)
    (janelas : list Z) :
  ∀ (todas0 : list WindowMetric) (m0 : Melhor)
    (todas : list WindowMetric) (m : Melhor),
  varrer_janelas arquivo df fv janelas todas0 m0 = (todas, Returned m) →
  (m = m0 ∧
   ∀ j r, roc_da_janela df fv janelas j r → gt r (melhor_roc m0) = false)
  ∨ (∃ i, vem_da_janela df fv janelas i m ∧
          gt (melhor_roc m) (melhor_roc m0) = true ∧
          ∀ j r, roc_da_janela df fv janelas j r →
                 ((j < i)%nat → r = nan ∨ gt (melhor_roc m) r = true) ∧
                 ((i < j)%nat → gt r (melhor_roc m) = false)).
Proof.
  induction janelas as [|meses resto IH]; intros todas0 m0 todas m Hv.
  - injection Hv as _ <-. left. split; [done|].
    intros j r (? & ? & ? & Hj & _). by rewrite lookup_nil in Hj.
  - simpl in Hv.
    destruct (treinar_avaliar df fv meses 100) as [[[acc f1] roc]|] eqn:Et;
      [|discriminate].
    apply IH in Hv.
    destruct (atualizar_melhor_so_se_maior m0 meses acc f1 roc)
      as [(r0 & -> & Hgt & Hup)|[Hle Hup]]; rewrite Hup in Hv; clear Hup.
    + (* the head window replaced the tracker *)
      destruct Hv as [[-> Hrest]|(i & Hi & Hgti & Hothers)]; right.
      * exists 0%nat. split; [by exists meses, acc, f1|].
        split; [done|]. intros [|j] r Hj; split; try lia.
        intros _. destruct Hj as (mj & aj & fj & Hj & Hej).
        apply (Hrest j r). by exists mj, aj, fj.
      * exists (S i). simpl in Hgti.
        split; [destruct Hi as (mi & ai & fi & ? & ?); by exists mi, ai, fi|].
        split; [by apply gt_trans with r0|].
        intros [|j] r Hj.
        -- split; [|lia]. intros _.
           destruct Hj as (mj & aj & fj & [= <-] & Hej).
           rewrite Et in Hej. simplify_eq. by right.
        -- destruct Hj as (mj & aj & fj & Hj & Hej).
           destruct (Hothers j r) as [Hb Ha]; [by exists mj, aj, fj|].
           split; intros; [apply Hb | apply Ha]; lia.
    + (* the head window left the tracker as it was *)
      destruct Hv as [[-> Hrest]|(i & Hi & Hgti & Hothers)].
      * left. split; [done|]. intros [|j] r (mj & aj & fj & Hj & Hej).
        -- injection Hj as <-. rewrite Et in Hej. simplify_eq.
           by apply Hle.
        -- apply (Hrest j r). by exists mj, aj, fj.
      * right. exists (S i).
        split; [destruct Hi as (mi & ai & fi & ? & ?); by exists mi, ai, fi|].
        split; [done|].
        intros [|j] r Hj.
        -- split; [|lia]. intros _.
           destruct Hj as (mj & aj & fj & [= <-] & Hej).
           rewrite Et in Hej. simplify_eq.
           apply gt_above with (melhor_roc m0); [done | by apply Hle].
        -- destruct Hj as (mj & aj & fj & Hj & Hej).
           destruct (Hothers j r) as [Hb Ha]; [by exists mj, aj, fj|].
           split; intros; [apply Hb | apply Ha]; lia.
Qed.

(** C5.  One step of the tracker replaces the best only by a ROC-AUC
    that is present and strictly above it, and then takes accuracy, F1
    and label from the same evaluation.  After a sweep that started from
    the initial best 0, either no window scored above 0 and the tracker
    is the initial one, or the tracker holds the three metrics and the
    label of one window: no later window scored strictly above it and
    every earlier window with a score scored strictly below it, so the
    first of several equal best windows is the one kept. *)
Theorem melhor_e_o_primeiro_maximo (arquivo : string) (df : DataFrame)
    (fv : list string) (janelas : list Z)
    (todas0 todas : list WindowMetric) (m : Melhor) :
  varrer_janelas arquivo df fv janelas todas0 melhor_inicial
  = (todas, Returned m) →
  (∀ m' meses acc f1 roc,
      atualizar_melhor m' meses acc f1 roc ≠ m' →
      ∃ r, roc = Some r ∧ gt r (melhor_roc m') = true ∧
           atualizar_melhor m' meses acc f1 roc
           = {| melhor_roc := r; melhor_acc := acc; melhor_f1 := f1;
                melhor_janela := Some (formatar_nome_janela meses) |}) ∧
  ((m = melhor_inicial ∧
    ∀ j r, roc_da_janela df fv janelas j r → gt r (num 0) = false)
   ∨ (∃ i, vem_da_janela df fv janelas i m ∧
           gt (melhor_roc m) (num 0) = true ∧
           ∀ j r, roc_da_janela df fv janelas j r →
                  ((j < i)%nat → r = nan ∨ gt (melhor_roc m) r = true) ∧
                  ((i < j)%nat → gt r (melhor_roc m) = false))).
Proof.
  intros Hv. split.
  - intros m' meses acc f1 roc Hne.
    destruct (atualizar_melhor_so_se_maior m' meses acc f1 roc)
      as [(r & ? & ? & ?)|[_ ?]]; [eauto | done].
  - exact (varrer_melhor _ _ _ _ _ _ _ _ Hv).
Qed.


(** ** Rows written by the sweep *)

Lemma varrer_retorna (arquivo : string) (df : DataFrame) (fv : list string)
    (janelas : list Z) :
  ∀ (todas0 : list WindowMetric) (m0 : Melhor),
  (∀ meses, meses ∈ janelas → treinar_avaliar df fv meses 100 ≠ Raised) →
  ∃ m, varrer_janelas arquivo df fv janelas todas0 m0
       = (todas0 ++ linhas_do_dataset arquivo df fv janelas, Returned m).
Proof.
  induction janelas as [|meses resto IH]; intros todas0 m0 Hok.
  - exists m0. simpl. by rewrite app_nil_r.
  - simpl. unfold linhas_do_dataset. simpl. unfold linha_da_janela at 1.
    destruct (treinar_avaliar df fv meses 100) as [[[acc f1] roc]|] eqn:Et.
    + destruct (IH (todas0 ++ [linha_metrica arquivo meses acc f1 roc])
                   (atualizar_melhor m0 meses acc f1 roc)) as (m & ->).
      { intros m' Hm'. apply Hok. by apply list_elem_of_further. }
      exists m. by rewrite <- app_assoc.
    + exfalso. apply (Hok meses); [apply list_elem_of_here | done].
Qed.


Lemma varrer_insuficiente (arquivo : string) (df : DataFrame)
    (fv : list string) (janelas : list Z) :
  ∀ (todas0 : list WindowMetric) (m0 : Melhor),
  (∀ meses, meses ∈ janelas →
            treinar_avaliar df fv meses 100 = Returned (None, None, None)) →
  varrer_janelas arquivo df fv janelas todas0 m0
  = (todas0 ++ map (fun meses => linha_metrica arquivo meses None None None)
                   janelas,
     Returned m0).
Proof.
  induction janelas as [|meses resto IH]; intros todas0 m0 Hins.
  - simpl. by rewrite app_nil_r.
  - simpl. rewrite (Hins meses) by apply list_elem_of_here.
    rewrite IH by (intros w Hw; apply Hins; by apply list_elem_of_further).
    simpl. by rewrite <- app_assoc.
Qed.

Lemma linhas_do_dataset_chaves (arquivo : string) (df : DataFrame)
    (fv : list string) (janelas : list Z) :
  (∀ meses, meses ∈ janelas → treinar_avaliar df fv meses 100 ≠ Raised) →
  map (fun l => (Dataset l, Janela l)) (linhas_do_dataset arquivo df fv janelas)
  = map (fun meses => (arquivo, formatar_nome_janela meses)) janelas.
Proof.
  induction janelas as [|meses resto IH]; intros Hok; [done|].
  unfold linhas_do_dataset. simpl. unfold linha_da_janela at 1.
  destruct (treinar_avaliar df fv meses 100) as [[[acc f1] roc]|] eqn:Et.
  - simpl. f_equal. apply IH. intros w Hw. apply Hok.
    by apply list_elem_of_further.
  - exfalso. apply (Hok meses); [apply list_elem_of_here | done].
Qed.

Lemma todas_metricas_foldl (fe : gmap string (list string)) (janelas : list Z)
    (arquivos : list string) :
  ∀ t : Tabelas,
  (∀ a df fv meses,
      a ∈ arquivos → validado fe a = Some (df, fv) → meses ∈ janelas →
      treinar_avaliar df fv meses 100 ≠ Raised) →
  todas_metricas (foldl (processar fe janelas) t arquivos)
  = todas_metricas t ++ tabela_completa fe janelas arquivos.
Proof.
  induction arquivos as [|a resto IH]; intros t Hok.
  - simpl. by rewrite app_nil_r.
  - simpl. rewrite IH.
    2:{ intros a' df fv meses Ha'. apply Hok. by apply list_elem_of_further. }
    unfold tabela_completa. simpl. rewrite app_assoc. f_equal.
    unfold processar.
    destruct (validado fe a) as [[df fv]|] eqn:Ev.
    + destruct (varrer_retorna a df fv janelas (todas_metricas t)
                  melhor_inicial) as (m & ->); [|done].
      intros meses Hm. apply (Hok a df fv meses); [apply list_elem_of_here|..];
        done.
    + by rewrite app_nil_r.
Qed.

(** ** The loop as a sum of what each file adds *)

Lemma linhas_do_dataset_cons (a : string) (df : DataFrame) (fv : list string)
    (meses : Z) (ws : list Z) (acc f1 roc : option cell) :
  treinar_avaliar df fv meses 100 = Returned (acc, f1, roc) →
  linhas_do_dataset a df fv (meses :: ws)
  = linha_metrica a meses acc f1 roc :: linhas_do_dataset a df fv ws.
Proof.
  intros Ht. unfold linhas_do_dataset. simpl.
  unfold linha_da_janela at 1. by rewrite Ht.
Qed.

Lemma varrer_geral (a : string) (df : DataFrame) (fv : list string)
    (janelas : list Z) :
  ∀ (todas0 : list WindowMetric) (m0 : Melhor),
  varrer_janelas a df fv janelas todas0 m0
  = (todas0 ++ linhas_do_dataset a df fv (ate_levantar df fv janelas),
     if alguma_levanta df fv janelas then Raised
     else Returned
            (foldl (fun m meses =>
                      match treinar_avaliar df fv meses 100 with
                      | Returned (acc, f1, roc) =>
                          atualizar_melhor m meses acc f1 roc
                      | Raised => m
                      end) m0 janelas)).
Proof.
  induction janelas as [|meses resto IH]; intros todas0 m0.
  - simpl. by rewrite app_nil_r.
  - cbn [varrer_janelas ate_levantar alguma_levanta existsb foldl].
    destruct (treinar_avaliar df fv meses 100) as [[[acc f1] roc]|] eqn:Et.
    + rewrite IH, (linhas_do_dataset_cons _ _ _ _ _ _ _ _ Et).
      by rewrite <- app_assoc.
    + simpl. by rewrite app_nil_r.
Qed.

Lemma processar_geral (fe : gmap string (list string)) (janelas : list Z)
    (t : Tabelas) (a : string) :
  processar fe janelas t a
  = {| resultados :=
         resultados t ++ option_list (resultado_do_arquivo fe janelas a);
       todas_metricas :=
         todas_metricas t ++ metricas_do_arquivo fe janelas a |}.
Proof.
  unfold processar, resultado_do_arquivo, metricas_do_arquivo.
  destruct (validado fe a) as [[df fv]|].
  - rewrite varrer_geral. unfold melhor_final.
    by destruct (alguma_levanta df fv janelas); simpl; rewrite ?app_nil_r.
  - destruct t. simpl. by rewrite !app_nil_r.
Qed.

Lemma foldl_processar (fe : gmap string (list string)) (janelas : list Z)
    (arquivos : list string) :
  ∀ t : Tabelas,
  foldl (processar fe janelas) t arquivos
  = {| resultados :=
         resultados t ++ omap (resultado_do_arquivo fe janelas) arquivos;
       todas_metricas :=
         todas_metricas t ++
         concat (map (metricas_do_arquivo fe janelas) arquivos) |}.
Proof.
  induction arquivos as [|a resto IH]; intros t; simpl.
  - destruct t. simpl. by rewrite !app_nil_r.
  - rewrite IH, processar_geral. simpl. rewrite <- !app_assoc. f_equal.
    by destruct (resultado_do_arquivo fe janelas a).
Qed.

Lemma ate_levantar_sem_levantar (df : DataFrame) (fv : list string)
    (janelas : list Z) :
  (∀ meses, meses ∈ janelas → treinar_avaliar df fv meses 100 ≠ Raised) →
  ate_levantar df fv janelas = janelas.
Proof.
  induction janelas as [|meses resto IH]; intros Hok; simpl; [done|].
  destruct (treinar_avaliar df fv meses 100) eqn:Et.
  - rewrite IH; [done|]. intros w Hw. by apply Hok, list_elem_of_further.
  - exfalso. apply (Hok meses); [apply list_elem_of_here | done].
Qed.

(** C8, as the code has it.  A file that enters the sweep and of which
    no evaluation of a window raises adds to the table of metrics,
    between the rows of the files before it and those of the files after
    it and whatever happens to them, exactly one row per candidate
    window in the order of the windows; the row is written whatever the
    evaluation returned, with absent metrics for a window short of data.
    When this holds of every file of the run, the table is one row per
    file that enters the sweep and candidate window, in the order of the
    files and then of the windows. *)
Theorem uma_linha_por_janela (fe : gmap string (list string))
    (janelas : list Z) :
  (∀ antes a depois df fv,
      validado fe a = Some (df, fv) →
      (∀ meses, meses ∈ janelas → treinar_avaliar df fv meses 100 ≠ Raised) →
      todas_metricas (main_com janelas (antes ++ a :: depois) fe)
      = todas_metricas (main_com janelas antes fe)
        ++ linhas_do_dataset a df fv janelas
        ++ todas_metricas (main_com janelas depois fe) ∧
      map (fun l => (Dataset l, Janela l)) (linhas_do_dataset a df fv janelas)
      = map (fun meses => (a, formatar_nome_janela meses)) janelas ∧
      ∀ meses,
        meses ∈ janelas →
        treinar_avaliar df fv meses 100 = Returned (None, None, None) →
        linha_da_janela a df fv meses
        = Some {| Dataset := a; Janela := formatar_nome_janela meses;
                  ROC_AUC := None; Accuracy := None; F1_Score := None |}) ∧
  (∀ arquivos,
      (∀ a df fv meses,
          a ∈ arquivos → validado fe a = Some (df, fv) → meses ∈ janelas →
          treinar_avaliar df fv meses 100 ≠ Raised) →
      todas_metricas (main_com janelas arquivos fe)
      = tabela_completa fe janelas arquivos).
Proof.
  split.
  - intros antes a depois df fv Hv Hok. split; [|split].
    + unfold main_com. rewrite !foldl_processar. simpl.
      rewrite map_app, concat_app. simpl. f_equal. f_equal.
      unfold metricas_do_arquivo at 1.
      by rewrite Hv, ate_levantar_sem_levantar.
    + by apply linhas_do_dataset_chaves.
    + intros meses _ Hins. unfold linha_da_janela. by rewrite Hins.
  - intros arquivos Hok. unfold main_com. by rewrite todas_metricas_foldl.
Qed.

(** C2, as the code has it.  For a dataset of which every window was
    short of data, the row appended to the table of best windows has an
    absent window label, and a ROC-AUC, an accuracy and an F1 that are
    all the number 0 with which the tracker started. *)
Theorem sem_janela_suficiente (fe : gmap string (list string))
    (janelas : list Z) (t : Tabelas) (a : string) (df : DataFrame)
    (fv : list string) :
  validado fe a = Some (df, fv) →
  (∀ meses, meses ∈ janelas →
            treinar_avaliar df fv meses 100 = Returned (None, None, None)) →
  processar fe janelas t a
  = {| resultados :=
         resultados t ++
         [{| Melhor_Dataset := a;
             Melhor_Janela := None;
             Melhor_ROC_AUC := Some (num 0);
             Melhor_Accuracy := Some (num 0);
             Melhor_F1_Score := Some (num 0) |}];
       todas_metricas :=
         todas_metricas t ++
         map (fun meses => linha_metrica a meses None None None) janelas |}.
Proof.
  intros Hv Hins. unfold processar. rewrite Hv.
  by rewrite varrer_insuficiente.
Qed.

(** ** A window whose test part has a single class *)




(** ** The rows of the prepared dataset *)

Lemma padronizar_chaves (fv : list string) (rs rs' : list Row) :
  padronizar fv rs = Returned rs' → map chave rs' = map chave rs.
Proof.
  unfold padronizar.
  destruct ((0 <? length rs)%nat && (0 <? length fv)%nat).
  - destruct (fit_transform (values fv rs)) as [M|]; [|done].
    apply assign_chaves.
  - by intros [= <-].
Qed.

Lemma preparar_dados_linhas (caminho : string) (features : list string)
    (raw : RawFrame) (df : DataFrame) (fv : list string) :
  read_csv caminho = Returned raw →
  preparar_dados caminho features = Returned (df, fv) →
  (∃ escala, rows df = add_target escala) ∧
  map chave (rows df)
  = map chave (List.filter (sobrevive fv) (coerce_dates (raw_rows raw))).
Proof.
  intros Hr Hp. apply preparar_dados_inv in Hp
    as (raw' & escala & Hr' & _ & _ & _ & _ & Hty & Hpad & ->).
  rewrite Hr in Hr'. injection Hr' as <-. simpl.
  split; [by exists escala|].
  rewrite add_target_chaves, (padronizar_chaves _ _ _ Hpad).
  by rewrite limpar_sobrevive.
Qed.

Lemma alvo_da_linha (rs : list Row) (i : nat) (r : Row) :
  add_target rs !! i = Some r →
  at_col r "Target"
  = match proxima (add_target rs) i with
    | Some r' => of_bool (gt (preco r') (preco r))
    | None => num 0
    end.
Proof.
  intros Hi. rewrite (add_target_lookup rs i r Hi), shift_next_find.
  unfold proxima. rewrite Hi.
  by destruct (List.find (same_ticker (Ticker r)) (drop (S i) (add_target rs))).
Qed.

(** C1, as the code has it.  The prepared dataset holds, in the order of
    the file, every observation that has a value in each valid feature
    and in the price and no infinite valid feature; none is left out for
    being the last of its instrument.  The last stored row of an
    instrument is kept with a Target of 0. *)
Theorem ultima_linha_fica_com_alvo_zero (caminho : string)
    (features : list string) (raw : RawFrame) (df : DataFrame)
    (fv : list string) :
  read_csv caminho = Returned raw →
  preparar_dados caminho features = Returned (df, fv) →
  map chave (rows df)
  = map chave (List.filter (sobrevive fv) (coerce_dates (raw_rows raw))) ∧
  ∀ i r, rows df !! i = Some r → proxima (rows df) i = None →
         at_col r "Target" = num 0.
Proof.
  intros Hr Hp.
  destruct (preparar_dados_linhas _ _ _ _ _ Hr Hp) as [[escala He] Hk].
  split; [exact Hk|].
  intros i r Hi Hnone. rewrite He in Hi, Hnone.
  by rewrite (alvo_da_linha escala i r Hi), Hnone.
Qed.

(** C3, as the code has it.  The missing-value step looks at the valid
    features and at the price, not at the date: the prepared dataset has
    as many rows without a date as the file has rows with an unreadable
    date that pass the cleaning.  Such rows are left out later, by the
    restriction to a window, which selects no row without a date. *)
Theorem data_ilegivel_so_sai_na_janela (caminho : string)
    (features : list string) (raw : RawFrame) (df : DataFrame)
    (fv : list string) :
  read_csv caminho = Returned raw →
  preparar_dados caminho features = Returned (df, fv) →
  length (List.filter sem_data (rows df))
  = length (List.filter
              (fun r => ilegivel r && sobrevive fv (coerce_row r))
              (raw_rows raw)) ∧
  ∀ meses r, r ∈ df_recente (rows df) meses → Date r ≠ None.
Proof.
  intros Hr Hp.
  destruct (preparar_dados_linhas _ _ _ _ _ Hr Hp) as [_ Hk].
  split.
  - rewrite (sem_data_chaves _ _ Hk), filter_filter_andb.
    unfold coerce_dates. rewrite filter_map_length.
    f_equal. apply filter_ext. intros r. by rewrite sem_data_ilegivel.
  - intros meses r Hin. unfold df_recente in Hin.
    apply list_elem_of_In, filter_In in Hin as [_ Hge].
    unfold ge_limite in Hge. by destruct (Date r).
Qed.

(** C4, as the code has it.  In the prepared dataset the Target of a row
    is 1 when the next stored row of the same instrument has a strictly
    greater price and 0 otherwise, in particular 0 when no row of the
    instrument follows; the comparison never leaves the instrument.
    When the rows of every instrument are stored by increasing date,
    that next stored row is the chronologically next observation, and a
    row that has none is the chronologically last one. *)
Theorem alvo_segue_a_ordem_do_arquivo (caminho : string)
    (features : list string) (df : DataFrame) (fv : list string) :
  preparar_dados caminho features = Returned (df, fv) →
  (∀ i r, rows df !! i = Some r →
     at_col r "Target"
     = match proxima (rows df) i with
       | Some r' => of_bool (gt (preco r') (preco r))
       | None => num 0
       end) ∧
  (∀ i r r', rows df !! i = Some r → proxima (rows df) i = Some r' →
     mesmo_grupo r r') ∧
  (ordenado (rows df) →
   ∀ i r, rows df !! i = Some r →
     match proxima (rows df) i with
     | Some r' => seguinte_no_tempo (rows df) r r'
     | None => ultima_no_tempo (rows df) r
     end).
Proof.
  intros Hp.
  destruct (preparar_dados_inv _ _ _ _ Hp)
    as (raw & escala & _ & _ & _ & _ & _ & _ & _ & ->). simpl.
  split; [|split].
  - intros i r. apply alvo_da_linha.
  - intros i r r' Hi Hn.
    by destruct (proxima_some _ _ _ _ Hi Hn) as (_ & _ & _ & ? & _).
  - intros Hord i r Hi.
    destruct (proxima (add_target escala) i) as [r'|] eqn:En.
    + by apply proxima_e_a_seguinte with i.
    + by apply sem_proxima_e_a_ultima with i.
Qed.


End Properties.

(** * Sample runs, checked *)

Lemma ordenado_b_ok (rs : list Row) : ordenado_b rs = true → ordenado rs.
Proof.
  induction rs as [|r rs IH]; intros Hb i j ri rj Hij Hi Hj Hg.
  - by rewrite lookup_nil in Hi.
  - simpl in Hb. apply andb_true_iff in Hb as [Hhead Hrest].
    destruct j as [|j]; [lia|]. simpl in Hj.
    destruct i as [|i]; simpl in Hi.
    + injection Hi as <-. rewrite forallb_forall in Hhead.
      assert (Hin : In rj rs)
        by (apply list_elem_of_In, list_elem_of_lookup; eauto).
      specialize (Hhead rj Hin).
      apply same_ticker_grupo in Hg. rewrite Hg in Hhead.
      destruct (Date r) as [t|], (Date rj) as [t'|]; try discriminate.
      exists t, t'. repeat split; try done. by apply Z.ltb_lt.
    + apply (IH Hrest i j ri rj); [lia | done..].
Qed.

Lemma retornou_ok {A : Type} (o : outcome A) : retornou o = true → o ≠ Raised.
Proof. by destruct o. Qed.

Lemma insuficiente_ok (o : outcome Metricas) :
  insuficiente o = true → o = Returned (None, None, None).
Proof. by destruct o as [[[[?|] [?|]] [?|]]|]. Qed.

Lemma preparar_amostra (arquivo : string) :
  features_de (preparar_dados (lib := biblioteca)
                 ("dados_transformados/" +:+ arquivo) ["x"]) = Some ["x"] →
  preparar_dados (lib := biblioteca) ("dados_transformados/" +:+ arquivo) ["x"]
  = Returned (preparado arquivo, ["x"]).
Proof.
  unfold preparado.
  destruct (preparar_dados _ _) as [[df fv]|]; simpl; [|discriminate].
  by intros [= ->].
Qed.

Lemma validado_amostra (arquivo : string) :
  selecionadas !! arquivo = Some ["x"] →
  features_de (preparar_dados (lib := biblioteca)
                 ("dados_transformados/" +:+ arquivo) ["x"]) = Some ["x"] →
  Nat.eqb (length (rows (preparado arquivo))) 0 = false →
  validado (lib := biblioteca) selecionadas arquivo
  = Some (preparado arquivo, ["x"]).
Proof.
  intros Hs Hp Hn. unfold validado. rewrite Hs.
  rewrite (preparar_amostra arquivo Hp). simpl. by rewrite Hn.
Qed.

Lemma preparar_uma_linha :
  preparar_dados (lib := biblioteca) "dados_transformados/uma_linha.csv" ["x"]
  = Returned (preparado "uma_linha.csv", ["x"]).
Proof. apply (preparar_amostra "uma_linha.csv"). vm_compute. reflexivity. Qed.

Lemma preparar_data_ilegivel :
  preparar_dados (lib := biblioteca)
    "dados_transformados/data_ilegivel.csv" ["x"]
  = Returned (preparado "data_ilegivel.csv", ["x"]).
Proof.
  apply (preparar_amostra "data_ilegivel.csv"). vm_compute. reflexivity.
Qed.

Lemma preparar_decrescente :
  preparar_dados (lib := biblioteca) "dados_transformados/decrescente.csv" ["x"]
  = Returned (preparado "decrescente.csv", ["x"]).
Proof. apply (preparar_amostra "decrescente.csv"). vm_compute. reflexivity. Qed.

Lemma preparar_intercalado :
  preparar_dados (lib := biblioteca) "dados_transformados/intercalado.csv" ["x"]
  = Returned (preparado "intercalado.csv", ["x"]).
Proof. apply (preparar_amostra "intercalado.csv"). vm_compute. reflexivity. Qed.

Lemma preparar_serra :
  preparar_dados (lib := biblioteca) "dados_transformados/serra.csv" ["x"]
  = Returned (preparado "serra.csv", ["x"]).
Proof. apply (preparar_amostra "serra.csv"). vm_compute. reflexivity. Qed.

Lemma validado_uma_linha :
  validado (lib := biblioteca) selecionadas "uma_linha.csv"
  = Some (preparado "uma_linha.csv", ["x"]).
Proof. apply validado_amostra; vm_compute; reflexivity. Qed.

Lemma validado_constante :
  validado (lib := biblioteca) selecionadas "constante.csv"
  = Some (preparado "constante.csv", ["x"]).
Proof. apply validado_amostra; vm_compute; reflexivity. Qed.

Lemma validado_serra :
  validado (lib := biblioteca) selecionadas "serra.csv"
  = Some (preparado "serra.csv", ["x"]).
Proof. apply validado_amostra; vm_compute; reflexivity. Qed.

Lemma resumo_uma_linha :
  resumo (rows (preparado "uma_linha.csv"))
  = [(Some 1704067200000000000, Some "A", num 10, num 0)].
Proof. vm_compute. reflexivity. Qed.

Lemma resumo_data_ilegivel :
  resumo (rows (preparado "data_ilegivel.csv"))
  = [(Some 1704067200000000000, Some "A", num 10, num 1);
     (None, Some "A", num 11, num 0)].
Proof. vm_compute. reflexivity. Qed.

Lemma resumo_decrescente :
  resumo (rows (preparado "decrescente.csv"))
  = [(Some 1704153600000000000, Some "A", num 20, num 0);
     (Some 1704067200000000000, Some "A", num 10, num 0)].
Proof. vm_compute. reflexivity. Qed.

Lemma resumo_intercalado :
  resumo (rows (preparado "intercalado.csv"))
  = [(Some 1704067200000000000, Some "A", num 10, num 1);
     (Some 1704067200000000000, Some "B", num 5, num 0);
     (Some 1704153600000000000, Some "A", num 12, num 0);
     (Some 1704153600000000000, Some "B", num 4, num 0)].
Proof. vm_compute. reflexivity. Qed.



(** ** Where the specification and the code part *)

(** C1, counterexample.  The only observation of a file, which is the
    last one of its instrument, is in the prepared dataset. *)
Lemma ultima_linha_nao_e_excluida :
  ∃ df fv,
    read_csv (Library := biblioteca) "dados_transformados/uma_linha.csv"
    = Returned arquivo_uma_linha ∧
    preparar_dados (lib := biblioteca) "dados_transformados/uma_linha.csv" ["x"]
    = Returned (df, fv) ∧
    ¬ exclui_ultima_de_cada_grupo (raw_rows arquivo_uma_linha) (rows df).
Proof.
  exists (preparado "uma_linha.csv"), ["x"].
  split; [reflexivity|]. split; [apply preparar_uma_linha|].
  intros Hex. pose proof resumo_uma_linha as Hr.
  destruct (rows (preparado "uma_linha.csv")) as [|r [|? ?]]; try discriminate.
  injection Hr as Hd Ht _ _.
  destruct (Hex r "A" 1704067200000000000)
    as (r' & d' & Hin & _ & Hd' & Hlt); [apply list_elem_of_here | done..|].
  apply list_elem_of_singleton in Hin as ->.
  injection Hd' as <-. vm_compute in Hlt. discriminate.
Qed.

(** C2, counterexample.  A file with a single observation has no window
    with enough data, and its row in the table of best windows carries
    the numbers 0, not absent values. *)
Lemma melhor_resultado_tem_zeros :
  todas_metricas (main (lib := biblioteca) ["uma_linha.csv"] selecionadas)
  = map (fun meses => linha_metrica "uma_linha.csv" meses None None None)
        janelas_meses ∧
  ∃ b,
    resultados (main (lib := biblioteca) ["uma_linha.csv"] selecionadas) = [b] ∧
    Melhor_ROC_AUC b = Some (num 0) ∧
    ¬ toda_ausente b.
Proof.
  split; [by vm_compute|]. eexists. split; [by vm_compute|].
  split; [done|]. intros (_ & Hroc & _). discriminate.
Qed.

(** C3, counterexample.  An observation with an unreadable date and a
    value in every other column is in the prepared dataset, without a
    date. *)
Lemma data_ausente_no_preparado :
  ∃ df fv,
    preparar_dados (lib := biblioteca)
      "dados_transformados/data_ilegivel.csv" ["x"]
    = Returned (df, fv) ∧
    ¬ sem_datas_ausentes (rows df).
Proof.
  exists (preparado "data_ilegivel.csv"), ["x"].
  split; [apply preparar_data_ilegivel|].
  intros Hs. pose proof resumo_data_ilegivel as Hr.
  destruct (rows (preparado "data_ilegivel.csv")) as [|r0 [|r1 [|? ?]]];
    try discriminate.
  injection Hr as _ _ _ _ Hd _ _ _.
  apply (Hs r1); [|done].
  apply list_elem_of_further, list_elem_of_here.
Qed.

(** C4, counterexample.  Of two observations stored with the later one
    first, the earlier one is followed in time by a strictly greater
    price and yet has a Target of 0. *)
Lemma alvo_ignora_a_data :
  ∃ df fv,
    preparar_dados (lib := biblioteca) "dados_transformados/decrescente.csv"
      ["x"]
    = Returned (df, fv) ∧
    ¬ alvo_cronologico (rows df).
Proof.
  exists (preparado "decrescente.csv"), ["x"].
  split; [apply preparar_decrescente|].
  intros Ha. pose proof resumo_decrescente as Hr.
  destruct (rows (preparado "decrescente.csv")) as [|r0 [|r1 [|? ?]]];
    try discriminate.
  injection Hr as Hd0 Ht0 Hp0 _ Hd1 Ht1 Hp1 Hy1.
  assert (Hseg : seguinte_no_tempo [r0; r1] r1 r0).
  { split; [apply list_elem_of_here|]. split; [by exists "A"|].
    exists 1704067200000000000, 1704153600000000000.
    repeat split; try done.
    intros r'' t'' Hin _ Hd'' Hlt.
    apply elem_of_cons in Hin as [->|Hin].
    - rewrite Hd0 in Hd''. by injection Hd'' as <-.
    - apply list_elem_of_singleton in Hin as ->.
      rewrite Hd1 in Hd''. injection Hd'' as <-. lia. }
  specialize (Ha r1 r0 (list_elem_of_further _ _ _ (list_elem_of_here _ _)) Hseg).
  rewrite Hy1, Hp0, Hp1 in Ha. vm_compute in Ha. discriminate.
Qed.

(** C6, counterexample.  With a window of 3559 months the subtraction
    of the cutoff leaves the 64-bit range of nanoseconds and raises: the
    120 rows of the file all have a date at or after the cutoff taken in
    the integers, fewer than a minimum of 121, and yet the evaluation
    does not return insufficient. *)
Lemma janela_de_3559_meses_levanta :
  preparar_dados (lib := biblioteca) "dados_transformados/serra.csv" ["x"]
  = Returned (preparado "serra.csv", ["x"]) ∧
  Z.of_nat (linhas_na_janela (rows (preparado "serra.csv")) 3559) = 120 ∧
  treinar_avaliar (lib := biblioteca) (preparado "serra.csv") ["x"] 3559 121
  = Raised ∧
  ¬ (treinar_avaliar (lib := biblioteca) (preparado "serra.csv") ["x"] 3559 121
     = Returned (None, None, None)
     ↔ Z.of_nat (linhas_na_janela (rows (preparado "serra.csv")) 3559) < 121).
Proof.
  assert (Hn : Z.of_nat (linhas_na_janela (rows (preparado "serra.csv")) 3559)
               = 120) by (vm_compute; reflexivity).
  assert (Hr : treinar_avaliar (lib := biblioteca) (preparado "serra.csv")
                 ["x"] 3559 121 = Raised) by (vm_compute; reflexivity).
  split; [apply preparar_serra|]. split; [exact Hn|]. split; [exact Hr|].
  rewrite Hn, Hr. intros [_ H]. by specialize (H ltac:(lia)).
Qed.

(** C8, counterexample.  A file that enters the sweep and of which the
    second window raises leaves one row for six candidate windows. *)
Lemma janela_que_levanta_nao_deixa_linha :
  is_Some (validado (lib := biblioteca) selecionadas "constante.csv") ∧
  treinar_avaliar (lib := biblioteca) (preparado "constante.csv") ["x"] 6 100
  = Raised ∧
  map (fun l => (Dataset l, Janela l))
      (todas_metricas (main (lib := biblioteca) ["constante.csv"] selecionadas))
  = [("constante.csv", "3m")] ∧
  ¬ uma_linha_por_par "constante.csv" janelas_meses
      (todas_metricas (main (lib := biblioteca) ["constante.csv"] selecionadas)).
Proof.
  split; [rewrite validado_constante; eauto|].
  split; [by vm_compute|]. split; [by vm_compute|].
  unfold uma_linha_por_par. vm_compute. discriminate.
Qed.




(** ** The theorems at work on the sample files *)

(** C9 at 30 and at 11 months. *)
Lemma rotulos_de_30_e_de_11_meses :
  12 ≤ 30 ∧ 11 < 12 ∧
  formatar_nome_janela 30 = "2a" ∧ formatar_nome_janela 11 = "11m".
Proof.
  destruct formatar_nome_janela_rotulos as (Hanos & Hmeses & _).
  split; [lia|]. split; [lia|]. split.
  - destruct (Hanos 30) as [-> _]; [lia | reflexivity].
  - rewrite (Hmeses 11); [reflexivity | lia].
Defined.

(** C7 at the windows of 3 and 6 months of a sample file. *)
Lemma janela_de_3_dentro_da_de_6 :
  3 < 6 ∧
  df_recente (rows (preparado "serra.csv")) 3
  `sublist_of` df_recente (rows (preparado "serra.csv")) 6.
Proof.
  split; [lia|].
  apply (janela_maior_contem_menor (rows (preparado "serra.csv")) 3 6). lia.
Defined.

(** C6 at a window of 120 rows, with a minimum of 120 and of 121. *)
Lemma limiar_de_120_linhas :
  ("Date" ∉ ["x"]) ∧
  preparar_dados (lib := biblioteca) "dados_transformados/serra.csv" ["x"]
  = Returned (preparado "serra.csv", ["x"]) ∧
  limite_da_janela (rows (preparado "serra.csv")) 6 ≠ Raised ∧
  Z.of_nat (linhas_na_janela (rows (preparado "serra.csv")) 6) = 120 ∧
  treinar_avaliar (lib := biblioteca) (preparado "serra.csv") ["x"] 6 120
  ≠ Returned (None, None, None) ∧
  treinar_avaliar (lib := biblioteca) (preparado "serra.csv") ["x"] 6 121
  = Returned (None, None, None).
Proof.
  assert (Hd : "Date" ∉ ["x"]).
  { intros H. apply list_elem_of_singleton in H. discriminate. }
  assert (Hl : limite_da_janela (rows (preparado "serra.csv")) 6 ≠ Raised).
  { apply retornou_ok. vm_compute. reflexivity. }
  assert (Hn : Z.of_nat (linhas_na_janela (rows (preparado "serra.csv")) 6)
               = 120) by (vm_compute; reflexivity).
  split; [exact Hd|]. split; [apply preparar_serra|].
  split; [exact Hl|]. split; [exact Hn|]. split.
  - destruct (insuficiente_sse_abaixo_do_minimo
                "dados_transformados/serra.csv" ["x"] (preparado "serra.csv")
                ["x"] 6 120 Hd preparar_serra) as (_ & H & _).
    specialize (H Hl). cbv zeta in H. destruct H as (_ & _ & H & _).
    apply H. exact Hn.
  - destruct (insuficiente_sse_abaixo_do_minimo
                "dados_transformados/serra.csv" ["x"] (preparado "serra.csv")
                ["x"] 6 121 Hd preparar_serra) as (_ & H & _).
    specialize (H Hl). cbv zeta in H. destruct H as (_ & _ & _ & H).
    apply H. rewrite Hn. reflexivity.
Defined.

(** C5 on a file of which five windows score the same: the first of
    them is kept. *)
Lemma empate_fica_com_a_primeira_janela :
  (varrer_janelas (lib := biblioteca) "serra.csv" (preparado "serra.csv") ["x"]
     janelas_meses [] melhor_inicial).2
  = Returned melhor_da_serra ∧
  ∃ i, vem_da_janela (lib := biblioteca) (preparado "serra.csv") ["x"]
         janelas_meses i melhor_da_serra ∧
       ∀ j r, roc_da_janela (lib := biblioteca) (preparado "serra.csv") ["x"]
                janelas_meses j r →
              ((j < i)%nat → r = nan ∨ gt (num (144 # 288)) r = true) ∧
              ((i < j)%nat → gt r (num (144 # 288)) = false).
Proof.
  assert (Hv : (varrer_janelas (lib := biblioteca) "serra.csv"
                  (preparado "serra.csv") ["x"] janelas_meses []
                  melhor_inicial).2 = Returned melhor_da_serra)
    by (vm_compute; reflexivity).
  split; [exact Hv|].
  destruct (varrer_janelas (lib := biblioteca) "serra.csv"
              (preparado "serra.csv") ["x"] janelas_meses [] melhor_inicial)
    as [todas o] eqn:E.
  simpl in Hv. subst o.
  destruct (melhor_e_o_primeiro_maximo (lib := biblioteca) _ _ _ _ _ _ _ E)
    as [_ [[Hm _]|(i & Hi & _ & Hj)]].
  - discriminate.
  - exists i. split; [exact Hi | exact Hj].
Defined.

Lemma janelas_da_uma_linha (meses : Z) :
  meses ∈ janelas_meses →
  treinar_avaliar (lib := biblioteca) (preparado "uma_linha.csv") ["x"] meses 100
  = Returned (None, None, None).
Proof.
  intros Hm.
  assert (Hall : forallb (fun w => insuficiente
                   (treinar_avaliar (lib := biblioteca)
                      (preparado "uma_linha.csv") ["x"] w 100))
                   janelas_meses = true) by (vm_compute; reflexivity).
  rewrite forallb_forall in Hall.
  apply insuficiente_ok, Hall. by apply list_elem_of_In.
Qed.

Lemma janelas_da_serra (meses : Z) :
  meses ∈ janelas_meses →
  treinar_avaliar (lib := biblioteca) (preparado "serra.csv") ["x"] meses 100
  ≠ Raised.
Proof.
  intros Hm.
  assert (Hall : forallb (fun w => retornou
                   (treinar_avaliar (lib := biblioteca)
                      (preparado "serra.csv") ["x"] w 100))
                   janelas_meses = true) by (vm_compute; reflexivity).
  rewrite forallb_forall in Hall.
  apply retornou_ok, Hall. by apply list_elem_of_In.
Qed.


(** C8, as the code has it, on a file of which no window raises, between
    a file that is abandoned at its second window and a file with a
    single observation. *)
Lemma tabela_de_dois_arquivos :
  validado (lib := biblioteca) selecionadas "serra.csv"
  = Some (preparado "serra.csv", ["x"]) ∧
  (∀ meses, meses ∈ janelas_meses →
     treinar_avaliar (lib := biblioteca) (preparado "serra.csv") ["x"] meses 100
     ≠ Raised) ∧
  todas_metricas
    (main_com (lib := biblioteca) janelas_meses
       (["constante.csv"] ++ "serra.csv" :: ["uma_linha.csv"]) selecionadas)
  = todas_metricas
      (main_com (lib := biblioteca) janelas_meses ["constante.csv"]
         selecionadas)
    ++ linhas_do_dataset (lib := biblioteca) "serra.csv"
         (preparado "serra.csv") ["x"] janelas_meses
    ++ todas_metricas
         (main_com (lib := biblioteca) janelas_meses ["uma_linha.csv"]
            selecionadas).
Proof.
  split; [exact validado_serra|]. split; [exact janelas_da_serra|].
  destruct (uma_linha_por_janela (lib := biblioteca) selecionadas
              janelas_meses) as [H _].
  destruct (H ["constante.csv"] "serra.csv" ["uma_linha.csv"]
              (preparado "serra.csv") ["x"] validado_serra janelas_da_serra)
    as [Ht _].
  exact Ht.
Defined.

(** C2, as the code has it, on the file with a single observation. *)
Lemma resultado_da_uma_linha :
  validado (lib := biblioteca) selecionadas "uma_linha.csv"
  = Some (preparado "uma_linha.csv", ["x"]) ∧
  (∀ meses, meses ∈ janelas_meses →
     treinar_avaliar (lib := biblioteca) (preparado "uma_linha.csv") ["x"]
       meses 100
     = Returned (None, None, None)) ∧
  resultados
    (processar (lib := biblioteca) selecionadas janelas_meses
       {| resultados := []; todas_metricas := [] |} "uma_linha.csv")
  = [{| Melhor_Dataset := "uma_linha.csv";
        Melhor_Janela := None;
        Melhor_ROC_AUC := Some (num 0);
        Melhor_Accuracy := Some (num 0);
        Melhor_F1_Score := Some (num 0) |}].
Proof.
  split; [apply validado_uma_linha|]. split; [apply janelas_da_uma_linha|].
  rewrite (sem_janela_suficiente (lib := biblioteca) selecionadas janelas_meses
             {| resultados := []; todas_metricas := [] |} "uma_linha.csv"
             (preparado "uma_linha.csv") ["x"]
             validado_uma_linha janelas_da_uma_linha).
  reflexivity.
Defined.



(** C1, as the code has it, on the file with a single observation. *)
Lemma alvo_da_uma_linha :
  read_csv (Library := biblioteca) "dados_transformados/uma_linha.csv"
  = Returned arquivo_uma_linha ∧
  preparar_dados (lib := biblioteca) "dados_transformados/uma_linha.csv" ["x"]
  = Returned (preparado "uma_linha.csv", ["x"]) ∧
  map chave (rows (preparado "uma_linha.csv"))
  = map chave
      (List.filter (sobrevive ["x"]) (coerce_dates (raw_rows arquivo_uma_linha))) ∧
  ∀ r, rows (preparado "uma_linha.csv") !! 0%nat = Some r →
       at_col r "Target" = num 0.
Proof.
  destruct (ultima_linha_fica_com_alvo_zero (lib := biblioteca)
              "dados_transformados/uma_linha.csv" ["x"] arquivo_uma_linha
              (preparado "uma_linha.csv") ["x"] eq_refl preparar_uma_linha)
    as [Hk Hlast].
  split; [reflexivity|]. split; [apply preparar_uma_linha|].
  split; [exact Hk|].
  intros r Hr. apply (Hlast 0%nat r Hr). by vm_compute.
Defined.

(** C3, as the code has it, on the file with an unreadable date. *)
Lemma linha_sem_data_contada :
  read_csv (Library := biblioteca) "dados_transformados/data_ilegivel.csv"
  = Returned arquivo_data_ilegivel ∧
  preparar_dados (lib := biblioteca)
    "dados_transformados/data_ilegivel.csv" ["x"]
  = Returned (preparado "data_ilegivel.csv", ["x"]) ∧
  length (List.filter sem_data (rows (preparado "data_ilegivel.csv"))) = 1%nat ∧
  ∀ meses r, r ∈ df_recente (rows (preparado "data_ilegivel.csv")) meses →
             Date r ≠ None.
Proof.
  destruct (data_ilegivel_so_sai_na_janela (lib := biblioteca)
              "dados_transformados/data_ilegivel.csv" ["x"]
              arquivo_data_ilegivel (preparado "data_ilegivel.csv") ["x"]
              eq_refl preparar_data_ilegivel)
    as [Hc Hw].
  split; [reflexivity|]. split; [apply preparar_data_ilegivel|].
  split; [|exact Hw].
  rewrite Hc. by vm_compute.
Defined.

Lemma ordenado_intercalado : ordenado (rows (preparado "intercalado.csv")).
Proof. apply ordenado_b_ok. by vm_compute. Qed.

(** C4, as the code has it, on two instruments stored by date. *)
Lemma alvos_do_intercalado :
  preparar_dados (lib := biblioteca) "dados_transformados/intercalado.csv" ["x"]
  = Returned (preparado "intercalado.csv", ["x"]) ∧
  ordenado (rows (preparado "intercalado.csv")) ∧
  ∀ i r, rows (preparado "intercalado.csv") !! i = Some r →
    at_col r "Target"
    = match proxima (rows (preparado "intercalado.csv")) i with
      | Some r' => of_bool (gt (preco r') (preco r))
      | None => num 0
      end ∧
    match proxima (rows (preparado "intercalado.csv")) i with
    | Some r' => seguinte_no_tempo (rows (preparado "intercalado.csv")) r r'
    | None => ultima_no_tempo (rows (preparado "intercalado.csv")) r
    end.
Proof.
  destruct (alvo_segue_a_ordem_do_arquivo (lib := biblioteca)
              "dados_transformados/intercalado.csv" ["x"]
              (preparado "intercalado.csv") ["x"] preparar_intercalado)
    as (Halvo & _ & Hcron).
  split; [apply preparar_intercalado|].
  split; [apply ordenado_intercalado|].
  intros i r Hi. split; [by apply Halvo|].
  by apply (Hcron ordenado_intercalado).
Defined.

(** * More properties of the script *)

Lemma has_col_elem (c : string) (cols : list string) :
  has_col c cols = true ↔ c ∈ cols.
Proof.
  unfold has_col. rewrite existsb_exists. split.
  - intros (x & Hin & Heq). apply String.eqb_eq in Heq as ->.
    by apply list_elem_of_In.
  - intros Hin. exists c. split; [by apply list_elem_of_In|].
    apply String.eqb_refl.
Qed.

Lemma typed_col_spec (c : string) :
  typed_col c = false ↔ c ≠ "Date" ∧ c ≠ "Ticker".
Proof.
  unfold typed_col. rewrite orb_false_iff.
  by rewrite <- !not_true_iff_false, !String.eqb_eq.
Qed.

Lemma sobrevive_spec (fv : list string) (r : Row) :
  sobrevive fv r = true ↔
  (∀ f, f ∈ fv → isna (at_col r f) = false ∧ isinf (at_col r f) = false) ∧
  isna (preco r) = false.
Proof.
  unfold sobrevive, completa, finita, preco.
  rewrite andb_true_iff, forallb_app, andb_true_iff, !forallb_forall.
  setoid_rewrite negb_true_iff. setoid_rewrite <- list_elem_of_In.
  setoid_rewrite list_elem_of_singleton.
  split.
  - intros [[Hna Hp] Hinf]. split; [|by apply Hp].
    intros f Hf. split; [by apply Hna | by apply Hinf].
  - intros [Hf Hp]. split; [split|].
    + intros f Hin. by apply Hf.
    + by intros f ->.
    + intros f Hin. by apply Hf.
Qed.

Lemma at_col_set_cells_other (cols : list string) (xs : list cell) (r : Row)
    (c : string) :
  c ∉ cols → at_col (set_cells cols xs r) c = at_col r c.
Proof.
  unfold at_col, set_cells. simpl. intros Hc. f_equal.
  generalize (vals r) as m. revert xs.
  induction cols as [|x cols IH]; intros [|y xs] m; simpl; try done.
  apply not_elem_of_cons in Hc as [Hne Hc].
  rewrite IH by done. by rewrite lookup_insert_ne.
Qed.

Lemma zip_with_set_cells_outra (cols : list string) (c : string)
    (M : list (list cell)) (rs : list Row) :
  c ∉ cols → length M = length rs →
  map (fun r => at_col r c) (zip_with (set_cells cols) M rs)
  = map (fun r => at_col r c) rs.
Proof.
  intros Hc. revert M.
  induction rs as [|r rs IH]; intros [|xs M]; simpl; try done.
  intros [= Hl]. by rewrite IH, at_col_set_cells_other.
Qed.

Lemma add_target_outra (c : string) (rs : list Row) :
  c ≠ "Target" →
  map (fun r => at_col r c) (add_target rs) = map (fun r => at_col r c) rs.
Proof.
  intros Hc. induction rs as [|r rs IH]; simpl; [done|].
  rewrite IH, at_col_set_target.
  by destruct (String.eqb_spec c "Target").
Qed.

Lemma add_target_binario (rs : list Row) (r : Row) :
  r ∈ add_target rs → at_col r "Target" = num 0 ∨ at_col r "Target" = num 1.
Proof.
  induction rs as [|r0 rs IH]; simpl; [by intros ?%elem_of_nil|].
  intros [->|Hin]%elem_of_cons; [|by apply IH].
  rewrite at_col_set_target. simpl.
  destruct (gt _ _); simpl; auto.
Qed.

Lemma values_forma (fv : list string) (rs : list Row) :
  Forall (fun xs => length xs = length fv) (values fv rs).
Proof.
  unfold values. apply Forall_forall. intros xs Hin.
  apply list_elem_of_fmap in Hin as (r & -> & _). apply length_map.
Qed.

Lemma filter_nil_se_nenhum {A : Type} (f : A → bool) (l : list A) :
  (∀ x, x ∈ l → f x = false) → List.filter f l = [].
Proof.
  induction l as [|a l IH]; intros Hf; simpl; [done|].
  rewrite (Hf a) by apply list_elem_of_here.
  apply IH. intros x Hx. by apply Hf, list_elem_of_further.
Qed.

Lemma df_recente_elem (rs : list Row) (meses : Z) (r : Row) :
  r ∈ df_recente rs meses ↔
  r ∈ rs ∧ ∃ t m, Date r = Some t ∧ max_date rs = Some m ∧
                  m - 30 * meses * ns_per_day ≤ t.
Proof.
  unfold df_recente, data_limite, timedelta.
  rewrite list_elem_of_In, filter_In, <- list_elem_of_In.
  unfold ge_limite. split.
  - intros [Hin Hge]. split; [done|].
    destruct (Date r) as [t|]; [|done].
    destruct (max_date rs) as [m|]; simpl in Hge; [|done].
    exists t, m. repeat split; try done. apply Z.leb_le in Hge. lia.
  - intros [Hin (t & m & -> & -> & Hle)]. split; [done|]. simpl.
    apply Z.leb_le. lia.
Qed.

Lemma max_date_recente (rs : list Row) (meses : Z) :
  0 ≤ meses → max_date (df_recente rs meses) = max_date rs.
Proof.
  intros Hm. destruct (max_date rs) as [m|] eqn:Em.
  - destruct (max_date_attained rs m Em) as (r & Hr & Hd).
    assert (Hsel : r ∈ df_recente rs meses).
    { apply df_recente_elem. split; [done|]. exists m, m.
      repeat split; try done. unfold ns_per_day. lia. }
    destruct (max_date_upper _ r m Hsel Hd) as (m' & Hm' & Hle).
    rewrite Hm'. f_equal.
    destruct (max_date_attained _ m' Hm') as (r' & Hr' & Hd').
    apply df_recente_elem in Hr' as [Hr' _].
    destruct (max_date_upper rs r' m' Hr' Hd') as (m'' & Hm'' & Hle').
    rewrite Em in Hm''. injection Hm'' as <-. lia.
  - destruct (max_date (df_recente rs meses)) as [m'|] eqn:Em'; [|done].
    destruct (max_date_attained _ m' Em') as (r' & Hr' & Hd').
    apply df_recente_elem in Hr' as [Hr' _].
    destruct (max_date_upper rs r' m' Hr' Hd') as (m'' & Hm'' & _).
    congruence.
Qed.

Lemma df_recente_vazio (rs : list Row) (meses : Z) :
  meses < 0 ∨ max_date rs = None → df_recente rs meses = [].
Proof.
  intros Hcase. unfold df_recente. apply filter_nil_se_nenhum. intros r Hr.
  apply not_true_iff_false. intros Hge.
  assert (Hin : r ∈ df_recente rs meses).
  { unfold df_recente. apply list_elem_of_In, filter_In.
    split; [by apply list_elem_of_In | done]. }
  apply df_recente_elem in Hin as (_ & t & m & Hd & Hm & Hle).
  destruct Hcase as [Hneg|Hnone]; [|congruence].
  destruct (max_date_upper rs r t Hr Hd) as (m' & Hm' & Hle').
  rewrite Hm in Hm'. injection Hm' as <-. unfold ns_per_day in Hle. lia.
Qed.

(** X7.  Where line 59 computes a cutoff, it is the maximum date less
    30 days per month, and the restriction to the window keeps, in the
    order of the frame, exactly the rows dated between the cutoff and
    the maximum date: a row of the frame is kept if and only if it has a
    date that is not before the cutoff.  The restriction is empty for a
    negative number of months and for a frame without a readable date;
    for a number of months that is not negative it holds every row that
    bears the maximum date. *)
Theorem janela_e_os_seus_limites (rs : list Row) (meses : Z)
    (limite : option Z) :
  limite_da_janela rs meses = Returned limite →
  limite = (fun m => m - 30 * meses * ns_per_day) <$> max_date rs ∧
  df_recente rs meses `sublist_of` rs ∧
  (∀ r, r ∈ df_recente rs meses ↔
        r ∈ rs ∧ ∃ t c m, Date r = Some t ∧ limite = Some c ∧
                          max_date rs = Some m ∧ c ≤ t ≤ m) ∧
  (meses < 0 → df_recente rs meses = []) ∧
  (max_date rs = None → df_recente rs meses = []) ∧
  (0 ≤ meses →
   ∀ r, r ∈ rs → Date r ≠ None → Date r = max_date rs →
        r ∈ df_recente rs meses).
Proof.
  intros Hl. apply limite_da_janela_retorna in Hl.
  assert (Hlim : limite = (fun m => m - 30 * meses * ns_per_day) <$> max_date rs).
  { rewrite Hl. unfold data_limite, timedelta.
    destruct (max_date rs) as [m|]; simpl; [|done]. f_equal. }
  split; [exact Hlim|].
  split; [apply filter_sublist|].
  split; [|split; [|split]].
  - intros r. rewrite df_recente_elem. split.
    + intros (Hr & t & m & Hd & Hm & Hle). split; [done|].
      exists t, (m - 30 * meses * ns_per_day), m.
      rewrite Hlim, Hm. repeat split; try done.
      destruct (max_date_upper rs r t Hr Hd) as (m' & Hm' & Hle').
      rewrite Hm in Hm'. by injection Hm' as <-.
    + intros (Hr & t & c & m & Hd & Hc & Hm & Hle & _). split; [done|].
      exists t, m. rewrite Hlim, Hm in Hc. injection Hc as <-.
      by repeat split.
  - intros; apply df_recente_vazio; by left.
  - intros; apply df_recente_vazio; by right.
  - intros Hm r Hr Hsome Hmax. apply df_recente_elem. split; [done|].
    destruct (Date r) as [t|] eqn:Hd; [|done].
    exists t, t. repeat split; try done. unfold ns_per_day. lia.
Qed.

(** X8.  Restricting to a window the rows already restricted to a window
    that is at least as long gives the restriction of the whole frame to
    the shorter window; in particular restricting twice to the same
    window changes nothing. *)
Theorem janela_dentro_de_janela (rs : list Row) (w1 w2 : Z) :
  w1 ≤ w2 → df_recente (df_recente rs w2) w1 = df_recente rs w1.
Proof.
  intros Hw. destruct (Z.lt_ge_cases w2 0) as [Hneg|Hpos].
  - rewrite (df_recente_vazio rs w2) by (by left).
    by rewrite (df_recente_vazio rs w1) by (left; lia).
  - unfold df_recente at 1. unfold data_limite.
    rewrite max_date_recente by done.
    unfold df_recente, data_limite. apply filter_filter_impl.
    intros r. apply ge_limite_mono. intros a.
    destruct (max_date rs) as [m|]; simpl; [|done].
    intros [= <-]. eexists; split; [reflexivity|].
    unfold timedelta, ns_per_day. lia.
Qed.

Lemma length_omap_le {A B : Type} (f : A → option B) (l : list A) :
  (length (omap f l) ≤ length l)%nat.
Proof.
  induction l as [|a l IH]; csimpl; [done|].
  destruct (f a); simpl; lia.
Qed.

Lemma app_char_inj (s1 s2 : string) (c1 c2 : Ascii.ascii) :
  s1 +:+ String c1 "" = s2 +:+ String c2 "" → s1 = s2 ∧ c1 = c2.
Proof.
  revert s2. induction s1 as [|a s1 IH]; intros [|b s2]; simpl.
  - by intros [= ->].
  - intros [= -> H]. by destruct s2.
  - intros [= -> H]. by destruct s1.
  - intros [= -> H]. apply IH in H as [-> ->]. done.
Qed.

(** X15.  Two month counts get the same label exactly when both are
    below 12 and equal, or both are at least 12 with the same number of
    whole years: the label tells the years or the months apart, and
    forgets the months beyond a whole year. *)
Theorem rotulos_iguais (m1 m2 : Z) :
  formatar_nome_janela m1 = formatar_nome_janela m2 ↔
  (m1 < 12 ∧ m2 < 12 ∧ m1 = m2) ∨
  (12 ≤ m1 ∧ 12 ≤ m2 ∧ m1 `div` 12 = m2 `div` 12).
Proof.
  unfold formatar_nome_janela.
  destruct (Z.leb_spec 12 m1) as [H1|H1], (Z.leb_spec 12 m2) as [H2|H2].
  - split.
    + intros [Hp _]%app_char_inj. apply (inj pretty) in Hp. right. lia.
    + intros [?|(_ & _ & ->)]; [lia | done].
  - split; [by intros [_ [=]]%app_char_inj | lia].
  - split; [by intros [_ [=]]%app_char_inj | lia].
  - split.
    + intros [Hp _]%app_char_inj. apply (inj pretty) in Hp. left. lia.
    + intros [(_ & _ & ->)|?]; [done | lia].
Qed.

Lemma list_ascii_of_string_app (s1 s2 : string) :
  String.list_ascii_of_string (s1 +:+ s2)
  = String.list_ascii_of_string s1 ++ String.list_ascii_of_string s2.
Proof. induction s1 as [|a s1 IH]; simpl; [done|]. by rewrite IH. Qed.

(** [endswith] is the test that the string is some text followed by the
    suffix. *)
Lemma endswith_spec (s sufixo : string) :
  endswith s sufixo = true ↔ ∃ nome, s = nome +:+ sufixo.
Proof.
  unfold endswith. rewrite bool_decide_eq_true. split.
  - intros [k Hk]. exists (String.string_of_list_ascii k).
    rewrite <- (String.string_of_list_ascii_of_string s), Hk.
    rewrite <- (String.string_of_list_ascii_of_string
                  (String.string_of_list_ascii k +:+ sufixo)).
    by rewrite list_ascii_of_string_app,
      String.list_ascii_of_string_of_list_ascii.
  - intros [nome ->]. exists (String.list_ascii_of_string nome).
    apply list_ascii_of_string_app.
Qed.

Section MoreProperties.
Context {lib : Library}.

(** X1.  The valid features returned by [preparar_dados] are the
    requested features that are columns of the file, in the order of the
    request: none is invented, and each is a column of the prepared
    dataset. *)
Theorem features_validas_sao_as_presentes (caminho : string)
    (features : list string) (raw : RawFrame) (df : DataFrame)
    (fv : list string) :
  read_csv caminho = Returned raw →
  preparar_dados caminho features = Returned (df, fv) →
  fv `sublist_of` features ∧
  (∀ f, f ∈ fv ↔ f ∈ features ∧ f ∈ raw_columns raw) ∧
  (∀ f, f ∈ fv → f ∈ columns df).
Proof.
  intros Hr Hp.
  destruct (preparado_tem_colunas _ _ _ _ Hp) as (_ & _ & Hcols).
  apply preparar_dados_inv in Hp
    as (raw' & escala & Hr' & Hfv & _ & _ & _ & _ & _ & Hdf).
  rewrite Hr in Hr'. injection Hr' as <-.
  split; [rewrite Hfv; apply filter_sublist|]. split.
  - intros f. rewrite Hfv, list_elem_of_In, filter_In, has_col_elem.
    by rewrite <- list_elem_of_In.
  - intros f Hf. rewrite forallb_forall in Hcols.
    apply has_col_elem, Hcols. by apply list_elem_of_In.
Qed.

(** X2.  The rows that lines 44-50 hand to the scaler are the rows of
    the file, unchanged and in order, that have neither a missing nor an
    infinite value in any valid feature and have a price: the matrix
    given to the scaler holds no NaN and no infinity. *)
Theorem matriz_do_escalonador_e_finita (caminho : string)
    (features : list string) (raw : RawFrame) (df : DataFrame)
    (fv : list string) :
  read_csv caminho = Returned raw →
  preparar_dados caminho features = Returned (df, fv) →
  let limpo := limpar fv (coerce_dates (raw_rows raw)) in
  limpo `sublist_of` coerce_dates (raw_rows raw) ∧
  (∀ r, r ∈ limpo ↔
        r ∈ coerce_dates (raw_rows raw) ∧
        (∀ f, f ∈ fv → isna (at_col r f) = false ∧ isinf (at_col r f) = false) ∧
        isna (preco r) = false) ∧
  (∀ xs x, xs ∈ values fv limpo → x ∈ xs → isna x = false ∧ isinf x = false) ∧
  ∃ escala, padronizar fv limpo = Returned escala ∧ rows df = add_target escala.
Proof.
  intros Hr Hp limpo.
  apply preparar_dados_inv in Hp
    as (raw' & escala & Hr' & _ & _ & _ & _ & Hty & Hpad & ->).
  rewrite Hr in Hr'. injection Hr' as <-.
  assert (Hl : limpo = List.filter (sobrevive fv) (coerce_dates (raw_rows raw)))
    by (by apply limpar_sobrevive).
  assert (Hin : ∀ r, r ∈ limpo ↔
        r ∈ coerce_dates (raw_rows raw) ∧
        (∀ f, f ∈ fv → isna (at_col r f) = false ∧ isinf (at_col r f) = false) ∧
        isna (preco r) = false).
  { intros r. rewrite Hl, list_elem_of_In, filter_In, sobrevive_spec.
    by rewrite <- list_elem_of_In. }
  split; [rewrite Hl; apply filter_sublist|]. split; [exact Hin|]. split.
  - intros xs x Hxs Hx. unfold values in Hxs.
    apply list_elem_of_fmap in Hxs as (r & -> & Hr0).
    apply list_elem_of_fmap in Hx as (f & -> & Hf).
    apply Hin in Hr0 as (_ & Hfeat & _). by apply Hfeat.
  - by exists escala.
Qed.

(** X3.  When the price is not itself a requested feature, the prices of
    the prepared dataset are those of the file's rows that pass the
    cleaning, untouched by the scaler, and none is missing. *)
Theorem precos_passam_intactos (caminho : string)
    (features : list string) (raw : RawFrame) (df : DataFrame)
    (fv : list string) :
  "Adj Close" ∉ features →
  read_csv caminho = Returned raw →
  preparar_dados caminho features = Returned (df, fv) →
  map preco (rows df)
  = map preco (List.filter (sobrevive fv) (coerce_dates (raw_rows raw))) ∧
  ∀ r, r ∈ rows df → isna (preco r) = false.
Proof.
  intros Hfeat Hr Hp.
  apply preparar_dados_inv in Hp
    as (raw' & escala & Hr' & Hfv & _ & _ & _ & Hty & Hpad & ->).
  assert (Hnot : "Adj Close" ∉ fv).
  { intros Hin. apply Hfeat. rewrite Hfv in Hin.
    apply list_elem_of_In, filter_In in Hin as [Hin _].
    by apply list_elem_of_In. }
  rewrite Hr in Hr'. injection Hr' as <-. simpl.
  rewrite limpar_sobrevive in Hpad by done.
  assert (Heq : map preco (add_target escala)
    = map preco (List.filter (sobrevive fv) (coerce_dates (raw_rows raw)))).
  { unfold preco. rewrite add_target_outra by done.
    unfold padronizar in Hpad.
    destruct (_ && _) in Hpad; [|by injection Hpad as <-].
    unfold assign in Hpad. returned Hpad. injection Hpad as <-.
    apply zip_with_set_cells_outra; [done | by apply Nat.eqb_eq]. }
  split; [exact Heq|].
  intros r Hin.
  assert (Hp' : preco r ∈ map preco (add_target escala))
    by (apply list_elem_of_fmap; eauto).
  rewrite Heq in Hp'. apply list_elem_of_fmap in Hp' as (r0 & -> & Hr0).
  apply list_elem_of_In, filter_In in Hr0 as [_ Hs].
  by apply sobrevive_spec in Hs as [_ ?].
Qed.

(** X4.  The prepared dataset has a Target column, and the Target of
    each of its rows is 0 or 1. *)
Theorem alvo_e_binario (caminho : string) (features : list string)
    (df : DataFrame) (fv : list string) :
  preparar_dados caminho features = Returned (df, fv) →
  "Target" ∈ columns df ∧
  ∀ r, r ∈ rows df → at_col r "Target" = num 0 ∨ at_col r "Target" = num 1.
Proof.
  intros Hp.
  destruct (preparado_tem_colunas _ _ _ _ Hp) as (_ & Ht & _).
  split; [by apply has_col_elem|].
  apply preparar_dados_inv in Hp
    as (raw & escala & _ & _ & _ & _ & _ & _ & _ & ->).
  intros r. apply add_target_binario.
Qed.

(** ** When the preparation raises *)

Lemma padronizar_retorna (fv : list string) (rs : list Row) :
  (rs ≠ [] → fv ≠ [] →
   ∃ M, fit_transform (values fv rs) = Returned M ∧
        length M = length rs ∧
        Forall (fun xs => length xs = length fv) M) →
  ∃ rs', padronizar fv rs = Returned rs'.
Proof.
  intros Hescala. unfold padronizar.
  destruct ((0 <? length rs)%nat && (0 <? length fv)%nat) eqn:E;
    [|by eexists].
  apply andb_true_iff in E as [Hrs Hfv].
  apply Nat.ltb_lt in Hrs, Hfv.
  destruct Hescala as (M & -> & Hlen & Hrows).
  { intros ->. simpl in Hrs. lia. }
  { intros ->. simpl in Hfv. lia. }
  simpl. unfold assign. rewrite Hlen, Nat.eqb_refl. simpl.
  assert (Hall : forallb (fun xs => Nat.eqb (length xs) (length fv)) M = true).
  { apply forallb_forall. intros xs Hin. apply Nat.eqb_eq.
    rewrite Forall_forall in Hrows. by apply Hrows, list_elem_of_In. }
  rewrite Hall. simpl. by eexists.
Qed.

(** X5.  Let the request name neither Date nor Ticker, and let the
    scaler, where lines 52-53 call it on the cleaned rows of the file,
    return a matrix of the shape it was given.  Then the preparation of
    a file that could be read raises exactly when the file lacks one of
    the columns Date, Adj Close and Ticker, or has no row while one of
    the requested features is among its columns.  Requested features
    that the file does not have never make it raise: when it returns,
    it returns the requested features that are present. *)
Theorem preparar_dados_so_levanta_por_coluna (caminho : string)
    (features : list string) (raw : RawFrame) :
  ("Date" ∉ features) → ("Ticker" ∉ features) →
  read_csv caminho = Returned raw →
  let fv := List.filter (fun f => has_col f (raw_columns raw)) features in
  let limpo := limpar fv (coerce_dates (raw_rows raw)) in
  (limpo ≠ [] → fv ≠ [] →
   ∃ M, fit_transform (values fv limpo) = Returned M ∧
        length M = length limpo ∧
        Forall (fun xs => length xs = length fv) M) →
  (preparar_dados caminho features = Raised ↔
   "Date" ∉ raw_columns raw ∨ "Adj Close" ∉ raw_columns raw ∨
   "Ticker" ∉ raw_columns raw ∨ (raw_rows raw = [] ∧ fv ≠ [])) ∧
  (preparar_dados caminho features ≠ Raised →
   ∃ df, preparar_dados caminho features = Returned (df, fv)).
Proof.
  intros HnD HnT Hr fv limpo Hescala.
  assert (Hty : existsb typed_col fv = false).
  { apply not_true_iff_false. rewrite existsb_exists. unfold fv.
    intros (f & Hin & Ht). apply filter_In in Hin as [Hin _].
    apply list_elem_of_In in Hin. unfold typed_col in Ht.
    by apply orb_true_iff in Ht as [->%String.eqb_eq| ->%String.eqb_eq]. }
  unfold preparar_dados. rewrite Hr. simpl. fold fv.
  destruct (has_col "Date" (raw_columns raw)) eqn:Hd; simpl.
  2:{ split; [|done]. split; [|done]. intros _. left.
      rewrite <- has_col_elem. by rewrite Hd. }
  destruct (has_col "Adj Close" (raw_columns raw)) eqn:Ha; simpl.
  2:{ split; [|done]. split; [|done]. intros _. right. left.
      rewrite <- has_col_elem. by rewrite Ha. }
  apply has_col_elem in Hd, Ha. rewrite Hty. simpl.
  destruct (colunas_de_float raw fv) eqn:Hfloat; simpl.
  2:{ split; [|done]. split; [|done]. intros _. right. right. right.
      unfold colunas_de_float in Hfloat.
      by destruct fv, (raw_rows raw). }
  assert (Hrows : ¬ (raw_rows raw = [] ∧ fv ≠ [])).
  { intros [Hvazio Hfv]. unfold colunas_de_float in Hfloat.
    rewrite Hvazio in Hfloat. by destruct fv. }
  fold limpo.
  destruct (padronizar_retorna fv limpo Hescala) as (escala & ->). simpl.
  destruct (has_col "Ticker" (raw_columns raw)) eqn:Hk; simpl.
  2:{ split; [|done]. split; [|done]. intros _. right. right. left.
      rewrite <- has_col_elem. by rewrite Hk. }
  apply has_col_elem in Hk.
  split; [|intros _; by eexists].
  split; [done|]. by intros [?|[?|[?|?]]].
Qed.

(** X6.  When none of the requested features is a column of the file,
    the preparation returns no valid feature, and the rows with a price,
    labelled and not scaled; the main loop then leaves the file out of
    both tables. *)
Theorem sem_feature_presente (caminho : string) (features : list string)
    (raw : RawFrame) :
  read_csv caminho = Returned raw →
  "Date" ∈ raw_columns raw → "Adj Close" ∈ raw_columns raw →
  "Ticker" ∈ raw_columns raw →
  (∀ f, f ∈ features → f ∉ raw_columns raw) →
  preparar_dados caminho features
  = Returned
      ({| columns := add_column "Target" (raw_columns raw);
          rows := add_target
                    (List.filter (fun r => negb (isna (preco r)))
                                 (coerce_dates (raw_rows raw))) |},
       []) ∧
  ∀ fe janelas t arquivo,
    caminho = "dados_transformados/" +:+ arquivo →
    fe !! arquivo = Some features →
    processar fe janelas t arquivo = t.
Proof.
  intros Hr Hd Ha Hk Hnone.
  assert (Hfv : List.filter (fun f => has_col f (raw_columns raw)) features
                = []).
  { apply filter_nil_se_nenhum. intros f Hf.
    apply not_true_iff_false. intros Hc. apply has_col_elem in Hc.
    by apply (Hnone f). }
  assert (Hp : preparar_dados caminho features
    = Returned
      ({| columns := add_column "Target" (raw_columns raw);
          rows := add_target
                    (List.filter (fun r => negb (isna (preco r)))
                                 (coerce_dates (raw_rows raw))) |},
       [])).
  { unfold preparar_dados. rewrite Hr. simpl. rewrite Hfv.
    apply has_col_elem in Hd, Ha, Hk. rewrite Hd, Ha, Hk. simpl.
    unfold padronizar. simpl. rewrite andb_false_r. simpl.
    do 3 f_equal. unfold limpar. simpl.
    assert (Hinf : ∀ l : list Row,
              existsb (existsb isinf) (values [] l) = false)
      by (induction l; simpl; auto).
    rewrite Hinf. unfold dropna. f_equal. apply filter_ext. intros r. simpl.
    rewrite missing_float by reflexivity. by rewrite orb_false_r. }
  split; [exact Hp|].
  intros fe janelas t arquivo -> Hfe.
  unfold processar, validado. by rewrite Hfe, Hp.
Qed.

(** X9.  For a dataset prepared from a request that does not name
    Date, and a positive minimum of samples: where line 59 does not
    raise, a negative number of months and a dataset without any
    readable date give the absent metrics, not an exception. *)
Theorem janela_vazia_e_insuficiente (caminho : string)
    (features : list string) (df : DataFrame) (fv : list string)
    (meses min_amostras : Z) :
  ("Date" ∉ features) →
  preparar_dados caminho features = Returned (df, fv) →
  0 < min_amostras →
  meses < 0 ∨ max_date (rows df) = None →
  limite_da_janela (rows df) meses ≠ Raised →
  treinar_avaliar df fv meses min_amostras = Returned (None, None, None).
Proof.
  intros _ Hp Hmin Hcase Hlim.
  destruct (preparado_tem_colunas _ _ _ _ Hp) as (Hd & _ & _).
  unfold treinar_avaliar. rewrite Hd. simpl.
  destruct (limite_da_janela (rows df) meses) as [lim|]; [|done]. simpl.
  rewrite (df_recente_vazio _ _ Hcase). simpl length.
  change (Z.of_nat 0) with 0.
  destruct (Z.ltb_spec 0 min_amostras); [done | lia].
Qed.

(** ** The two tables, exceptions included *)

(** X10.  The two tables that the main loop builds, exceptions included.
    The table of metrics is, file after file, the rows of the windows
    that come before the first window of the file to raise (all of them
    when none raises).  The table of best windows has one row, in the
    order of the files, for each file that enters the sweep and of which
    no window raises: the tracker after its windows. *)
Theorem tabelas_de_main (fe : gmap string (list string)) (janelas : list Z)
    (arquivos : list string) :
  todas_metricas (main_com janelas arquivos fe)
  = concat (map (metricas_do_arquivo fe janelas) arquivos) ∧
  resultados (main_com janelas arquivos fe)
  = omap (resultado_do_arquivo fe janelas) arquivos.
Proof. unfold main_com. by rewrite foldl_processar. Qed.

(** X11.  The tables only grow: what the main loop has written after
    some files is a prefix of what it has written after more files. *)
Theorem tabelas_so_crescem (fe : gmap string (list string))
    (janelas : list Z) (antes depois : list string) :
  resultados (main_com janelas antes fe)
  `prefix_of` resultados (main_com janelas (antes ++ depois) fe) ∧
  todas_metricas (main_com janelas antes fe)
  `prefix_of` todas_metricas (main_com janelas (antes ++ depois) fe).
Proof.
  unfold main_com. rewrite foldl_app.
  rewrite (foldl_processar fe janelas depois). simpl.
  split; by apply prefix_app_r.
Qed.

Lemma ate_levantar_sublista (df : DataFrame) (fv : list string)
    (janelas : list Z) :
  ate_levantar df fv janelas `sublist_of` janelas.
Proof.
  induction janelas as [|meses resto IH]; simpl; [constructor|].
  destruct (treinar_avaliar df fv meses 100).
  - by constructor.
  - apply sublist_nil_l.
Qed.

Lemma linhas_do_dataset_elem (a : string) (df : DataFrame) (fv : list string)
    (ws : list Z) (l : WindowMetric) :
  l ∈ linhas_do_dataset a df fv ws →
  ∃ meses acc f1 roc,
    meses ∈ ws ∧
    treinar_avaliar df fv meses 100 = Returned (acc, f1, roc) ∧
    l = linha_metrica a meses acc f1 roc.
Proof.
  unfold linhas_do_dataset. rewrite list_elem_of_omap.
  intros (meses & Hin & Hl). unfold linha_da_janela in Hl.
  destruct (treinar_avaliar df fv meses 100) as [[[acc f1] roc]|] eqn:Et;
    [|done].
  injection Hl as <-. by exists meses, acc, f1, roc.
Qed.

Lemma todas_metricas_elem (fe : gmap string (list string)) (janelas : list Z)
    (arquivos : list string) (l : WindowMetric) :
  l ∈ todas_metricas (main_com janelas arquivos fe) →
  ∃ a df fv meses acc f1 roc,
    a ∈ arquivos ∧ validado fe a = Some (df, fv) ∧ meses ∈ janelas ∧
    treinar_avaliar df fv meses 100 = Returned (acc, f1, roc) ∧
    l = linha_metrica a meses acc f1 roc.
Proof.
  unfold main_com. rewrite foldl_processar. simpl.
  rewrite list_elem_of_In, in_concat.
  intros (ls & Hls & Hl). apply in_map_iff in Hls as (a & <- & Ha).
  unfold metricas_do_arquivo in Hl.
  destruct (validado fe a) as [[df fv]|] eqn:Ev; [|done].
  apply list_elem_of_In, linhas_do_dataset_elem in Hl
    as (meses & acc & f1 & roc & Hin & Ht & ->).
  exists a, df, fv, meses, acc, f1, roc.
  repeat split; try done; [by apply list_elem_of_In|].
  eapply elem_of_sublist; [done | apply ate_levantar_sublista].
Qed.

Lemma resultados_elem (fe : gmap string (list string)) (janelas : list Z)
    (arquivos : list string) (b : BestWindowResult) :
  b ∈ resultados (main_com janelas arquivos fe) →
  ∃ a df fv,
    a ∈ arquivos ∧ validado fe a = Some (df, fv) ∧
    alguma_levanta df fv janelas = false ∧
    b = linha_resultado a (melhor_final df fv janelas).
Proof.
  unfold main_com. rewrite foldl_processar. simpl.
  rewrite list_elem_of_omap. intros (a & Ha & Hb).
  unfold resultado_do_arquivo in Hb.
  destruct (validado fe a) as [[df fv]|] eqn:Ev; [|done].
  destruct (alguma_levanta df fv janelas) eqn:El; [done|].
  injection Hb as <-. by exists a, df, fv.
Qed.

Lemma validado_tem_features (fe : gmap string (list string)) (a : string)
    (df : DataFrame) (fv : list string) :
  validado fe a = Some (df, fv) → is_Some (fe !! a).
Proof. unfold validado. destruct (fe !! a); [eauto | done]. Qed.

Lemma arquivos_csv_elem (listagem : list string) (a : string) :
  a ∈ arquivos_csv listagem ↔ a ∈ listagem ∧ endswith a ".csv" = true.
Proof.
  unfold arquivos_csv. by rewrite list_elem_of_In, filter_In, list_elem_of_In.
Qed.

(** X12.  Whatever the directory holds, every row of either table is
    about a file of the listing whose name ends with ".csv" and that has
    an entry in the store of features; the window of a row of metrics
    is one of the candidate windows. *)
Theorem so_arquivos_csv_com_features (listagem : list string)
    (fe : gmap string (list string)) :
  (∀ l, l ∈ todas_metricas (executar listagem fe) →
        Dataset l ∈ listagem ∧ endswith (Dataset l) ".csv" = true ∧
        is_Some (fe !! Dataset l) ∧
        ∃ meses, meses ∈ janelas_meses ∧
                 Janela l = formatar_nome_janela meses) ∧
  (∀ b, b ∈ resultados (executar listagem fe) →
        Melhor_Dataset b ∈ listagem ∧ endswith (Melhor_Dataset b) ".csv" = true ∧
        is_Some (fe !! Melhor_Dataset b)).
Proof.
  unfold executar, main. split.
  - intros l Hl. apply todas_metricas_elem in Hl
      as (a & df & fv & meses & acc & f1 & roc & Ha & Hv & Hm & _ & ->).
    apply arquivos_csv_elem in Ha as [Ha Hcsv]. simpl.
    repeat split; try done; [by eapply validado_tem_features|].
    by exists meses.
  - intros b Hb. apply resultados_elem in Hb
      as (a & df & fv & Ha & Hv & _ & ->).
    apply arquivos_csv_elem in Ha as [Ha Hcsv]. simpl.
    repeat split; try done. by eapply validado_tem_features.
Qed.


Lemma ate_levantar_todas (df : DataFrame) (fv : list string)
    (janelas : list Z) :
  alguma_levanta df fv janelas = false → ate_levantar df fv janelas = janelas.
Proof.
  induction janelas as [|meses resto IH]; simpl; [done|].
  destruct (treinar_avaliar df fv meses 100); simpl; [|done].
  intros Hl. by rewrite IH.
Qed.

Lemma varrer_sem_levantar (a : string) (df : DataFrame) (fv : list string)
    (janelas : list Z) :
  alguma_levanta df fv janelas = false →
  varrer_janelas a df fv janelas [] melhor_inicial
  = (linhas_do_dataset a df fv janelas, Returned (melhor_final df fv janelas)).
Proof.
  intros Hl. rewrite varrer_geral, Hl, (ate_levantar_todas _ _ _ Hl). done.
Qed.

(** X13.  A row of the table of best windows that names a window is
    backed by a row of the table of metrics with the same file, the same
    label, and the same ROC-AUC, accuracy and F1. *)
Theorem melhor_tem_linha_de_metricas (fe : gmap string (list string))
    (janelas : list Z) (arquivos : list string) (b : BestWindowResult)
    (rotulo : string) :
  b ∈ resultados (main_com janelas arquivos fe) →
  Melhor_Janela b = Some rotulo →
  ∃ l, l ∈ todas_metricas (main_com janelas arquivos fe) ∧
       Dataset l = Melhor_Dataset b ∧ Janela l = rotulo ∧
       ROC_AUC l = Melhor_ROC_AUC b ∧ Accuracy l = Melhor_Accuracy b ∧
       F1_Score l = Melhor_F1_Score b.
Proof.
  intros Hb Hj. apply resultados_elem in Hb as (a & df & fv & Ha & Hv & Hl & ->).
  simpl in Hj.
  destruct (varrer_melhor _ _ _ _ _ _ _ _ (varrer_sem_levantar a df fv janelas Hl))
    as [[Hm _]|(i & (meses & acc & f1 & Hi & Ht & Hacc & Hf1 & Hlab) & _)].
  - rewrite Hm in Hj. discriminate.
  - exists (linha_metrica a meses acc f1 (Some (melhor_roc (melhor_final df fv janelas)))).
    split.
    + unfold main_com. rewrite foldl_processar. simpl.
      apply list_elem_of_In, in_concat.
      exists (metricas_do_arquivo fe janelas a). split.
      * apply in_map. by apply list_elem_of_In.
      * unfold metricas_do_arquivo. rewrite Hv, (ate_levantar_todas _ _ _ Hl).
        apply list_elem_of_In. unfold linhas_do_dataset.
        apply list_elem_of_omap. exists meses.
        split; [apply list_elem_of_lookup; eauto|].
        unfold linha_da_janela. by rewrite Ht.
    + simpl. rewrite Hlab in Hj. injection Hj as <-. by rewrite Hacc, Hf1.
Qed.

(** X14.  After a sweep that returned, the best window has no label
    exactly when no window scored strictly above 0, and the tracker is
    then the initial one: windows that had enough data and scored 0 or
    NaN leave the label absent.  The best ROC-AUC is never NaN and never
    below 0. *)
Theorem rotulo_ausente_sse_nada_acima_de_zero (arquivo : string)
    (df : DataFrame) (fv : list string) (janelas : list Z)
    (todas0 todas : list WindowMetric) (m : Melhor) :
  varrer_janelas arquivo df fv janelas todas0 melhor_inicial
  = (todas, Returned m) →
  (melhor_janela m = None ↔
   ∀ j r, roc_da_janela df fv janelas j r → gt r (num 0) = false) ∧
  (melhor_janela m = None → m = melhor_inicial) ∧
  melhor_roc m ≠ nan ∧
  gt (num 0) (melhor_roc m) = false.
Proof.
  intros Hv.
  destruct (varrer_melhor _ _ _ _ _ _ _ _ Hv)
    as [[-> Hnone]|(i & (meses & acc & f1 & Hi & Ht & _ & _ & Hlab) & Hgt & _)].
  - repeat split; try done.
  - simpl in Hgt. split; [|split; [|split]].
    + split; [by rewrite Hlab|]. intros Hall.
      rewrite (Hall i (melhor_roc m)) in Hgt; [done|].
      by exists meses, acc, f1.
    + by rewrite Hlab.
    + by apply gt_not_nan in Hgt as [? _].
    + destruct (melhor_roc m) as [| |q|]; simpl in *; try done.
      apply negb_true_iff, not_true_iff_false in Hgt.
      apply negb_false_iff, Qle_bool_iff.
      apply Qlt_le_weak, Qnot_le_lt. intros Hle. apply Hgt.
      by apply Qle_bool_iff.
Qed.

Lemma treinar_avaliar_tudo_ou_nada (df : DataFrame) (fv : list string)
    (meses min_amostras : Z) (acc f1 roc : option cell) :
  treinar_avaliar df fv meses min_amostras = Returned (acc, f1, roc) →
  (acc = None ∧ f1 = None ∧ roc = None) ∨
  (is_Some acc ∧ is_Some f1 ∧ is_Some roc).
Proof.
  unfold treinar_avaliar. intros Ht. returned Ht.
  destruct (_ <? _) in Ht.
  - injection Ht as <- <- <-. by left.
  - right. by apply treinar_e_medir_presentes in Ht.
Qed.

(** X16.  In every row of the table of metrics the ROC-AUC, the accuracy
    and the F1 are absent together or present together. *)
Theorem metricas_juntas (fe : gmap string (list string)) (janelas : list Z)
    (arquivos : list string) (l : WindowMetric) :
  l ∈ todas_metricas (main_com janelas arquivos fe) →
  (ROC_AUC l = None ∧ Accuracy l = None ∧ F1_Score l = None) ∨
  (is_Some (ROC_AUC l) ∧ is_Some (Accuracy l) ∧ is_Some (F1_Score l)).
Proof.
  intros Hl. apply todas_metricas_elem in Hl
    as (a & df & fv & meses & acc & f1 & roc & _ & _ & _ & Ht & ->). simpl.
  destruct (treinar_avaliar_tudo_ou_nada _ _ _ _ _ _ _ Ht)
    as [(-> & -> & ->)|(? & ? & ?)]; auto.
Qed.

Lemma resultados_nomes_sublista (fe : gmap string (list string))
    (janelas : list Z) (arquivos : list string) :
  map Melhor_Dataset (omap (resultado_do_arquivo fe janelas) arquivos)
  `sublist_of` arquivos.
Proof.
  induction arquivos as [|a resto IH]; csimpl; [constructor|].
  unfold resultado_do_arquivo at 1.
  destruct (validado fe a) as [[df fv]|]; [|by apply sublist_cons].
  destruct (alguma_levanta df fv janelas); [by apply sublist_cons|].
  simpl. by apply sublist_skip.
Qed.

Lemma linhas_do_dataset_chaves_sublista (a : string) (df : DataFrame)
    (fv : list string) (ws : list Z) :
  map (fun l => (Dataset l, Janela l)) (linhas_do_dataset a df fv ws)
  `sublist_of` map (fun meses => (a, formatar_nome_janela meses)) ws.
Proof.
  unfold linhas_do_dataset.
  induction ws as [|meses resto IH]; csimpl; [constructor|].
  unfold linha_da_janela at 1.
  destruct (treinar_avaliar df fv meses 100) as [[[acc f1] roc]|].
  - simpl. by apply sublist_skip.
  - by apply sublist_cons.
Qed.

Lemma metricas_do_arquivo_chaves (fe : gmap string (list string))
    (janelas : list Z) (a : string) :
  map (fun l => (Dataset l, Janela l)) (metricas_do_arquivo fe janelas a)
  `sublist_of` map (fun meses => (a, formatar_nome_janela meses)) janelas.
Proof.
  unfold metricas_do_arquivo.
  destruct (validado fe a) as [[df fv]|]; [|apply sublist_nil_l].
  etransitivity; [apply linhas_do_dataset_chaves_sublista|].
  apply (fmap_sublist _), ate_levantar_sublista.
Qed.

Lemma pares_sem_repeticao (janelas : list Z) (arquivos : list string) :
  NoDup arquivos →
  NoDup (map formatar_nome_janela janelas) →
  NoDup (concat (map (fun a => map (fun meses => (a, formatar_nome_janela meses))
                                   janelas) arquivos)).
Proof.
  intros Ha Hj. induction Ha as [|a resto Hnot Hresto IH]; simpl;
    [constructor|].
  apply NoDup_app. split; [|split; [|exact IH]].
  - rewrite <- (map_map formatar_nome_janela (pair a)).
    by apply (NoDup_fmap_2 (pair a)).
  - intros [a' j] Hin Hin'.
    apply list_elem_of_fmap in Hin as (meses & [= -> ->] & _).
    apply list_elem_of_In, in_concat in Hin' as (ls & Hls & Hin').
    apply in_map_iff in Hls as (b & <- & Hb).
    apply in_map_iff in Hin' as (meses' & [= -> _] & _).
    by apply Hnot, list_elem_of_In.
Qed.

(** X17.  When no file name comes twice, the table of best windows has
    at most one row per file; when moreover no two candidate windows
    have the same label, the table of metrics has at most one row per
    file and window label. *)
Theorem tabelas_limitadas (fe : gmap string (list string)) (janelas : list Z)
    (arquivos : list string) :
  NoDup arquivos →
  NoDup (map Melhor_Dataset (resultados (main_com janelas arquivos fe))) ∧
  (NoDup (map formatar_nome_janela janelas) →
   NoDup (map (fun l => (Dataset l, Janela l))
              (todas_metricas (main_com janelas arquivos fe)))).
Proof.
  intros Ha. unfold main_com. rewrite foldl_processar. simpl. split.
  - eapply sublist_NoDup; [exact Ha | apply resultados_nomes_sublista].
  - intros Hj. eapply sublist_NoDup; [apply (pares_sem_repeticao _ _ Ha Hj)|].
    clear Ha. induction arquivos as [|a resto IH]; simpl; [constructor|].
    rewrite map_app. apply sublist_app; [|exact IH].
    apply metricas_do_arquivo_chaves.
Qed.

(** X18.  Take a file with the three columns Date, Adj Close and Ticker
    of which no row passes the cleaning, and a request that names
    neither Date nor Ticker.  When the file has rows, the preparation
    returns an empty dataset without calling the scaler; when it has
    none and one of the requested features is among its columns, the
    preparation raises at line 46.  Either way the main loop leaves the
    file out of both tables. *)
Theorem arquivo_sem_linhas_e_pulado (caminho : string)
    (features : list string) (raw : RawFrame) :
  read_csv caminho = Returned raw →
  "Date" ∈ raw_columns raw → "Adj Close" ∈ raw_columns raw →
  "Ticker" ∈ raw_columns raw →
  ("Date" ∉ features) → ("Ticker" ∉ features) →
  let fv := List.filter (fun f => has_col f (raw_columns raw)) features in
  (∀ r, r ∈ coerce_dates (raw_rows raw) → sobrevive fv r = false) →
  (raw_rows raw ≠ [] →
   preparar_dados caminho features
   = Returned ({| columns := add_column "Target" (raw_columns raw);
                  rows := [] |}, fv)) ∧
  (raw_rows raw = [] → fv ≠ [] → preparar_dados caminho features = Raised) ∧
  ∀ fe janelas t arquivo,
    caminho = "dados_transformados/" +:+ arquivo →
    fe !! arquivo = Some features →
    processar fe janelas t arquivo = t.
Proof.
  intros Hr Hd Ha Hk HnD HnT fv Hnone.
  assert (Hty : existsb typed_col fv = false).
  { apply not_true_iff_false. rewrite existsb_exists. unfold fv.
    intros (f & Hin & Ht). apply filter_In in Hin as [Hin _].
    apply list_elem_of_In in Hin. unfold typed_col in Ht.
    by apply orb_true_iff in Ht as [->%String.eqb_eq| ->%String.eqb_eq]. }
  apply has_col_elem in Hd, Ha, Hk.
  assert (Hp : preparar_dados caminho features
    = if colunas_de_float raw fv
      then Returned ({| columns := add_column "Target" (raw_columns raw);
                        rows := [] |}, fv)
      else Raised).
  { unfold preparar_dados. rewrite Hr. simpl. fold fv.
    rewrite Hd, Ha, Hty. simpl.
    destruct (colunas_de_float raw fv); simpl; [|done].
    rewrite limpar_sobrevive by done.
    rewrite (filter_nil_se_nenhum _ _ Hnone). simpl. by rewrite Hk. }
  split; [|split].
  - intros Hrows. rewrite Hp. unfold colunas_de_float.
    by destruct fv, (raw_rows raw).
  - intros Hrows Hfv. rewrite Hp. unfold colunas_de_float. rewrite Hrows.
    by destruct fv.
  - intros fe janelas t arquivo -> Hfe.
    unfold processar, validado. rewrite Hfe, Hp.
    destruct (colunas_de_float raw fv); [|done]. simpl.
    by rewrite orb_true_r.
Qed.

End MoreProperties.

(** ** More properties at work on the sample files *)

(** The stand-in for the scaler returns a matrix of the shape it was
    given. *)
Lemma escala_de_constantes_forma (fv : list string) (rs : list Row) :
  ∃ M, fit_transform (Library := biblioteca) (values fv rs) = Returned M ∧
       length M = length rs ∧
       Forall (fun xs => length xs = length fv) M.
Proof.
  exists (escala_de_constantes (values fv rs)). split; [reflexivity|].
  unfold escala_de_constantes, values. split; [by rewrite !length_map|].
  apply Forall_forall. intros xs Hin.
  apply list_elem_of_fmap in Hin as (ys & -> & Hys).
  apply list_elem_of_fmap in Hys as (r & -> & _).
  by rewrite !length_map.
Qed.

Lemma colunas_da_amostra :
  "Date" ∈ colunas ∧ "Adj Close" ∈ colunas ∧ "Ticker" ∈ colunas.
Proof. repeat split; by apply has_col_elem. Qed.

(** X1 on the file with a single observation. *)
Lemma features_da_uma_linha :
  read_csv (Library := biblioteca) "dados_transformados/uma_linha.csv"
  = Returned arquivo_uma_linha ∧
  preparar_dados (lib := biblioteca) "dados_transformados/uma_linha.csv" ["x"]
  = Returned (preparado "uma_linha.csv", ["x"]) ∧
  ["x"] `sublist_of` ["x"] ∧
  ∀ f, f ∈ ["x"] → f ∈ columns (preparado "uma_linha.csv").
Proof.
  destruct (features_validas_sao_as_presentes (lib := biblioteca)
              "dados_transformados/uma_linha.csv" ["x"] arquivo_uma_linha
              (preparado "uma_linha.csv") ["x"] eq_refl preparar_uma_linha)
    as (Hsub & _ & Hcols).
  split; [reflexivity|]. split; [exact preparar_uma_linha|].
  split; [exact Hsub | exact Hcols].
Defined.

(** X2 on the file with an unreadable date. *)
Lemma matriz_da_data_ilegivel :
  read_csv (Library := biblioteca) "dados_transformados/data_ilegivel.csv"
  = Returned arquivo_data_ilegivel ∧
  preparar_dados (lib := biblioteca)
    "dados_transformados/data_ilegivel.csv" ["x"]
  = Returned (preparado "data_ilegivel.csv", ["x"]) ∧
  ∀ xs x,
    xs ∈ values ["x"]
           (limpar ["x"] (coerce_dates (raw_rows arquivo_data_ilegivel))) →
    x ∈ xs → isna x = false ∧ isinf x = false.
Proof.
  destruct (matriz_do_escalonador_e_finita (lib := biblioteca)
              "dados_transformados/data_ilegivel.csv" ["x"]
              arquivo_data_ilegivel (preparado "data_ilegivel.csv") ["x"]
              eq_refl preparar_data_ilegivel)
    as (_ & _ & Hfin & _).
  split; [reflexivity|]. split; [exact preparar_data_ilegivel|]. exact Hfin.
Defined.

Lemma preco_nao_e_feature : "Adj Close" ∉ ["x"].
Proof. by intros [=]%list_elem_of_singleton. Qed.

(** X3 on two instruments stored by date. *)
Lemma precos_do_intercalado :
  ("Adj Close" ∉ ["x"]) ∧
  read_csv (Library := biblioteca) "dados_transformados/intercalado.csv"
  = Returned arquivo_intercalado ∧
  preparar_dados (lib := biblioteca) "dados_transformados/intercalado.csv" ["x"]
  = Returned (preparado "intercalado.csv", ["x"]) ∧
  ∀ r, r ∈ rows (preparado "intercalado.csv") → isna (preco r) = false.
Proof.
  destruct (precos_passam_intactos (lib := biblioteca)
              "dados_transformados/intercalado.csv" ["x"] arquivo_intercalado
              (preparado "intercalado.csv") ["x"]
              preco_nao_e_feature eq_refl preparar_intercalado)
    as [_ Hp].
  split; [exact preco_nao_e_feature|]. split; [reflexivity|].
  split; [exact preparar_intercalado | exact Hp].
Defined.

(** X4 on two instruments stored by date. *)
Lemma alvos_binarios_do_intercalado :
  preparar_dados (lib := biblioteca) "dados_transformados/intercalado.csv" ["x"]
  = Returned (preparado "intercalado.csv", ["x"]) ∧
  "Target" ∈ columns (preparado "intercalado.csv") ∧
  ∀ r, r ∈ rows (preparado "intercalado.csv") →
       at_col r "Target" = num 0 ∨ at_col r "Target" = num 1.
Proof.
  split; [exact preparar_intercalado|].
  exact (alvo_e_binario (lib := biblioteca)
           "dados_transformados/intercalado.csv" ["x"]
           (preparado "intercalado.csv") ["x"] preparar_intercalado).
Defined.

Lemma pedido_x_y : ("Date" ∉ ["x"; "y"]) ∧ ("Ticker" ∉ ["x"; "y"]).
Proof.
  split.
  - intros [[=]|[=]%list_elem_of_singleton]%elem_of_cons.
  - intros [[=]|[=]%list_elem_of_singleton]%elem_of_cons.
Qed.

(** X5 on the file with a single observation, with a feature that the
    file has and one that it has not. *)
Lemma uma_linha_com_feature_ausente :
  ("Date" ∉ ["x"; "y"]) ∧ ("Ticker" ∉ ["x"; "y"]) ∧
  read_csv (Library := biblioteca) "dados_transformados/uma_linha.csv"
  = Returned arquivo_uma_linha ∧
  (∀ fv rs,
     ∃ M, fit_transform (Library := biblioteca) (values fv rs) = Returned M ∧
          length M = length rs ∧
          Forall (fun xs => length xs = length fv) M) ∧
  preparar_dados (lib := biblioteca) "dados_transformados/uma_linha.csv"
    ["x"; "y"] ≠ Raised.
Proof.
  destruct pedido_x_y as (HnD & HnT).
  destruct (preparar_dados_so_levanta_por_coluna (lib := biblioteca)
              "dados_transformados/uma_linha.csv" ["x"; "y"] arquivo_uma_linha
              HnD HnT eq_refl
              (fun _ _ => escala_de_constantes_forma _ _))
    as [Hiff _].
  split; [exact HnD|]. split; [exact HnT|]. split; [reflexivity|].
  split; [exact escala_de_constantes_forma|].
  intros Hr. apply Hiff in Hr.
  destruct colunas_da_amostra as (Hd & Ha & Hk).
  destruct Hr as [?|[?|[?|[Hvazio _]]]]; try done.
Defined.

Lemma y_nao_e_coluna (f : string) : f ∈ ["y"] → f ∉ colunas.
Proof.
  intros ->%list_elem_of_singleton Hin%has_col_elem. discriminate.
Qed.

(** X6 on the file with a single observation, asked for a feature that
    it has not. *)
Lemma uma_linha_sem_a_feature :
  read_csv (Library := biblioteca) "dados_transformados/uma_linha.csv"
  = Returned arquivo_uma_linha ∧
  (∀ f, f ∈ ["y"] → f ∉ raw_columns arquivo_uma_linha) ∧
  features_de (preparar_dados (lib := biblioteca)
                 "dados_transformados/uma_linha.csv" ["y"]) = Some [] ∧
  ∀ janelas t,
    processar (lib := biblioteca) {["uma_linha.csv" := ["y"]]} janelas t
      "uma_linha.csv" = t.
Proof.
  destruct colunas_da_amostra as (Hd & Ha & Hk).
  destruct (sem_feature_presente (lib := biblioteca)
              "dados_transformados/uma_linha.csv" ["y"] arquivo_uma_linha
              eq_refl Hd Ha Hk y_nao_e_coluna)
    as [Hp Hskip].
  split; [reflexivity|]. split; [exact y_nao_e_coluna|]. split.
  - by rewrite Hp.
  - intros janelas t.
    apply (Hskip {["uma_linha.csv" := ["y"]]} janelas t "uma_linha.csv");
      reflexivity.
Defined.

(** X7 at the window of 0 months of two instruments on two days: the
    cutoff is the second day. *)
Lemma janela_de_0_meses_do_intercalado :
  limite_da_janela (rows (preparado "intercalado.csv")) 0
  = Returned (Some 1704153600000000000) ∧
  df_recente (rows (preparado "intercalado.csv")) 0
  `sublist_of` rows (preparado "intercalado.csv") ∧
  ∀ r, r ∈ rows (preparado "intercalado.csv") →
       Date r = Some 1704153600000000000 →
       r ∈ df_recente (rows (preparado "intercalado.csv")) 0.
Proof.
  assert (Hl : limite_da_janela (rows (preparado "intercalado.csv")) 0
               = Returned (Some 1704153600000000000))
    by (vm_compute; reflexivity).
  assert (Hm : max_date (rows (preparado "intercalado.csv"))
               = Some 1704153600000000000) by (vm_compute; reflexivity).
  destruct (janela_e_os_seus_limites (rows (preparado "intercalado.csv")) 0
              (Some 1704153600000000000) Hl)
    as (_ & Hsub & Hiff & _).
  split; [exact Hl|]. split; [exact Hsub|].
  intros r Hr Hd. apply Hiff. split; [exact Hr|].
  exists 1704153600000000000, 1704153600000000000, 1704153600000000000.
  split; [exact Hd|]. split; [reflexivity|]. split; [exact Hm|]. lia.
Defined.

(** X8 at the windows of 3 and 6 months of a sample file. *)
Lemma janela_de_3_na_de_6 :
  3 ≤ 6 ∧
  df_recente (df_recente (rows (preparado "serra.csv")) 6) 3
  = df_recente (rows (preparado "serra.csv")) 3.
Proof.
  split; [lia|].
  apply (janela_dentro_de_janela (rows (preparado "serra.csv")) 3 6). lia.
Defined.

(** X9 at a window of -1 month. *)
Lemma janela_negativa_da_uma_linha :
  ("Date" ∉ ["x"]) ∧
  preparar_dados (lib := biblioteca) "dados_transformados/uma_linha.csv" ["x"]
  = Returned (preparado "uma_linha.csv", ["x"]) ∧
  0 < 100 ∧ -1 < 0 ∧
  limite_da_janela (rows (preparado "uma_linha.csv")) (-1) ≠ Raised ∧
  treinar_avaliar (lib := biblioteca) (preparado "uma_linha.csv") ["x"] (-1) 100
  = Returned (None, None, None).
Proof.
  assert (Hd : "Date" ∉ ["x"]) by (by intros [=]%list_elem_of_singleton).
  assert (Hl : limite_da_janela (rows (preparado "uma_linha.csv")) (-1)
               ≠ Raised).
  { apply retornou_ok. vm_compute. reflexivity. }
  split; [exact Hd|]. split; [exact preparar_uma_linha|].
  split; [lia|]. split; [lia|]. split; [exact Hl|].
  apply (janela_vazia_e_insuficiente (lib := biblioteca)
           "dados_transformados/uma_linha.csv" ["x"]
           (preparado "uma_linha.csv") ["x"] (-1) 100 Hd preparar_uma_linha);
    [lia | left; lia | exact Hl].
Defined.

Lemma resultados_da_serra :
  resultados (main_com (lib := biblioteca) janelas_meses ["serra.csv"]
                selecionadas)
  = [linha_resultado "serra.csv" melhor_da_serra].
Proof. vm_compute. reflexivity. Qed.

(** X13 on the file with the moving price. *)
Lemma melhor_da_serra_tem_linha :
  linha_resultado "serra.csv" melhor_da_serra
  ∈ resultados (main_com (lib := biblioteca) janelas_meses ["serra.csv"]
                  selecionadas) ∧
  Melhor_Janela (linha_resultado "serra.csv" melhor_da_serra) = Some "6m" ∧
  ∃ l, l ∈ todas_metricas (main_com (lib := biblioteca) janelas_meses
                             ["serra.csv"] selecionadas) ∧
       Dataset l = "serra.csv" ∧ Janela l = "6m" ∧
       ROC_AUC l = Some (num (144 # 288)).
Proof.
  assert (Hb : linha_resultado "serra.csv" melhor_da_serra
               ∈ resultados (main_com (lib := biblioteca) janelas_meses
                               ["serra.csv"] selecionadas)).
  { rewrite resultados_da_serra. apply list_elem_of_here. }
  split; [exact Hb|]. split; [reflexivity|].
  destruct (melhor_tem_linha_de_metricas (lib := biblioteca) selecionadas
              janelas_meses ["serra.csv"]
              (linha_resultado "serra.csv" melhor_da_serra) "6m" Hb eq_refl)
    as (l & Hl & Hd & Hj & Hroc & _).
  exists l. split; [exact Hl|]. split; [exact Hd|]. split; [exact Hj|].
  exact Hroc.
Defined.

Lemma varredura_da_uma_linha :
  (varrer_janelas (lib := biblioteca) "uma_linha.csv"
     (preparado "uma_linha.csv") ["x"] janelas_meses [] melhor_inicial).2
  = Returned melhor_inicial.
Proof. vm_compute. reflexivity. Qed.

(** X14 on the file with a single observation. *)
Lemma rotulo_ausente_da_uma_linha :
  (varrer_janelas (lib := biblioteca) "uma_linha.csv"
     (preparado "uma_linha.csv") ["x"] janelas_meses [] melhor_inicial).2
  = Returned melhor_inicial ∧
  ∀ j r, roc_da_janela (lib := biblioteca) (preparado "uma_linha.csv") ["x"]
           janelas_meses j r →
         gt r (num 0) = false.
Proof.
  split; [exact varredura_da_uma_linha|].
  pose proof varredura_da_uma_linha as Hv.
  destruct (varrer_janelas (lib := biblioteca) "uma_linha.csv"
              (preparado "uma_linha.csv") ["x"] janelas_meses []
              melhor_inicial) as [todas o] eqn:E.
  simpl in Hv. subst o.
  destruct (rotulo_ausente_sse_nada_acima_de_zero (lib := biblioteca)
              _ _ _ _ _ _ _ E) as [Hiff _].
  apply Hiff. reflexivity.
Defined.

Lemma metricas_da_uma_linha :
  todas_metricas (main_com (lib := biblioteca) janelas_meses ["uma_linha.csv"]
                    selecionadas)
  = map (fun meses => linha_metrica "uma_linha.csv" meses None None None)
        janelas_meses.
Proof. vm_compute. reflexivity. Qed.

(** X16 on the first row of the file with a single observation. *)
Lemma metricas_juntas_da_uma_linha :
  linha_metrica "uma_linha.csv" 3 None None None
  ∈ todas_metricas (main_com (lib := biblioteca) janelas_meses
                      ["uma_linha.csv"] selecionadas) ∧
  ((ROC_AUC (linha_metrica "uma_linha.csv" 3 None None None) = None ∧
    Accuracy (linha_metrica "uma_linha.csv" 3 None None None) = None ∧
    F1_Score (linha_metrica "uma_linha.csv" 3 None None None) = None) ∨
   (is_Some (ROC_AUC (linha_metrica "uma_linha.csv" 3 None None None)) ∧
    is_Some (Accuracy (linha_metrica "uma_linha.csv" 3 None None None)) ∧
    is_Some (F1_Score (linha_metrica "uma_linha.csv" 3 None None None)))).
Proof.
  assert (Hl : linha_metrica "uma_linha.csv" 3 None None None
               ∈ todas_metricas (main_com (lib := biblioteca) janelas_meses
                                   ["uma_linha.csv"] selecionadas)).
  { rewrite metricas_da_uma_linha. apply list_elem_of_here. }
  split; [exact Hl|].
  exact (metricas_juntas (lib := biblioteca) selecionadas janelas_meses
           ["uma_linha.csv"] _ Hl).
Defined.

Lemma pedido_x : ("Date" ∉ ["x"]) ∧ ("Ticker" ∉ ["x"]).
Proof. split; by intros [=]%list_elem_of_singleton. Qed.

(** X17 on the three sample files that enter the sweep. *)
Lemma uma_linha_por_arquivo_e_rotulo :
  NoDup ["uma_linha.csv"; "constante.csv"; "serra.csv"] ∧
  NoDup (map formatar_nome_janela janelas_meses) ∧
  NoDup (map Melhor_Dataset
           (resultados
              (main_com (lib := biblioteca) janelas_meses
                 ["uma_linha.csv"; "constante.csv"; "serra.csv"]
                 selecionadas))) ∧
  NoDup (map (fun l => (Dataset l, Janela l))
           (todas_metricas
              (main_com (lib := biblioteca) janelas_meses
                 ["uma_linha.csv"; "constante.csv"; "serra.csv"]
                 selecionadas))).
Proof.
  assert (Ha : NoDup ["uma_linha.csv"; "constante.csv"; "serra.csv"]).
  { apply (bool_decide_unpack _). vm_compute. exact I. }
  assert (Hj : NoDup (map formatar_nome_janela janelas_meses)).
  { apply (bool_decide_unpack _). vm_compute. exact I. }
  destruct (tabelas_limitadas (lib := biblioteca) selecionadas janelas_meses
              ["uma_linha.csv"; "constante.csv"; "serra.csv"] Ha)
    as [Hres Hmet].
  split; [exact Ha|]. split; [exact Hj|]. split; [exact Hres|].
  exact (Hmet Hj).
Defined.

(** X18 on a file of which the only row has no price, and on a file with
    its header and no row. *)
Lemma arquivo_vazio_e_pulado :
  read_csv (Library := biblioteca_vazia) "dados_transformados/sem_preco.csv"
  = Returned arquivo_sem_preco ∧
  (∀ r, r ∈ coerce_dates (raw_rows arquivo_sem_preco) →
        sobrevive
          (List.filter (fun f => has_col f (raw_columns arquivo_sem_preco))
                       ["x"])
          r = false) ∧
  raw_rows arquivo_sem_preco ≠ [] ∧
  preparar_dados (lib := biblioteca_vazia) "dados_transformados/sem_preco.csv"
    ["x"]
  = Returned ({| columns := add_column "Target" (raw_columns arquivo_sem_preco);
                 rows := [] |},
              List.filter (fun f => has_col f (raw_columns arquivo_sem_preco))
                          ["x"]) ∧
  (∀ janelas t,
     processar (lib := biblioteca_vazia) {["sem_preco.csv" := ["x"]]} janelas t
       "sem_preco.csv" = t) ∧
  preparar_dados (lib := biblioteca_vazia) "dados_transformados/vazio.csv" ["x"]
  = Raised.
Proof.
  destruct colunas_da_amostra as (Hd & Ha & Hk).
  destruct pedido_x as (HnD & HnT).
  assert (Hnone : ∀ r, r ∈ coerce_dates (raw_rows arquivo_sem_preco) →
            sobrevive
              (List.filter (fun f => has_col f (raw_columns arquivo_sem_preco))
                           ["x"]) r = false).
  { assert (Hall : forallb (fun r => negb (sobrevive ["x"] r))
                     (coerce_dates (raw_rows arquivo_sem_preco)) = true)
      by (vm_compute; reflexivity).
    rewrite forallb_forall in Hall. intros r Hin.
    apply negb_true_iff, Hall. by apply list_elem_of_In. }
  assert (Hrows : raw_rows arquivo_sem_preco ≠ []) by done.
  destruct (arquivo_sem_linhas_e_pulado (lib := biblioteca_vazia)
              "dados_transformados/sem_preco.csv" ["x"] arquivo_sem_preco
              eq_refl Hd Ha Hk HnD HnT Hnone)
    as (Hp & _ & Hskip).
  assert (Hnone' : ∀ r, r ∈ coerce_dates (raw_rows arquivo_vazio) →
            sobrevive
              (List.filter (fun f => has_col f (raw_columns arquivo_vazio))
                           ["x"]) r = false)
    by (intros r Hin; by apply elem_of_nil in Hin).
  destruct (arquivo_sem_linhas_e_pulado (lib := biblioteca_vazia)
              "dados_transformados/vazio.csv" ["x"] arquivo_vazio
              eq_refl Hd Ha Hk HnD HnT Hnone')
    as (_ & Hraise & _).
  split; [reflexivity|]. split; [exact Hnone|]. split; [exact Hrows|].
  split; [exact (Hp Hrows)|]. split.
  - intros janelas t.
    apply (Hskip {["sem_preco.csv" := ["x"]]} janelas t "sem_preco.csv");
      reflexivity.
  - apply Hraise; [reflexivity | discriminate].
Defined.
